(** * check_routeros: threshold resolution, probes and check runs

    A shallow embedding of [check_routeros.py], the RouterOS monitoring
    plugin, and the properties of its specification.

    Layout:
    - [Py]: the Python values, exceptions and builtins the plugin relies on
      ([int()], [float()], [str()] of a float, comparisons, [re.sub]);
    - [Nagios]: the parts of the [nagiosplugin] library the plugin calls
      (ranges, scalar contexts, results, the check runner);
    - [RouterOS]: the plugin itself ([ScalarPercentContext], the memory,
      uptime and ping probes, the [system.memory] and [system.uptime]
      commands);
    - [Truth], [Connection], [Vrrp], [Ping]: the rest of the plugin, the
      command-line options and the connection set-up, the VRRP check and
      the [tool.ping] command;
    - the theorems.

    Strings are ASCII: device replies and command-line options are byte
    strings, and [\d] is read as [0-9]. *)

From Stdlib Require Import ZArith QArith Qround String Ascii List Bool Lia.
From Stdlib Require Import Floats.SpecFloat DecimalString.
From stdpp Require Import base option gmap strings.

Open Scope string_scope.
Open Scope Z_scope.

(* ===================================================================== *)
(** * Python values, exceptions and builtins                              *)
(* ===================================================================== *)

Module Py.

(** Exceptions, by Python class; the text is the message. *)
Inductive exn : Type :=
| ValueError (msg : string)
| TypeError (msg : string)
| KeyError (key : string)
| IndexError (msg : string)
| AttributeError (msg : string)
| OverflowError (msg : string)
| ConnectionError (msg : string).

(** The result of an expression that may raise. *)
Inductive res (A : Type) : Type :=
| Return (a : A)
| Raise (e : exn).
Arguments Return {A} a.
Arguments Raise {A} e.

#[global] Instance res_ret : MRet res := fun A a => Return a.
#[global] Instance res_bind : MBind res := fun A B f m =>
  match m with
  | Return a => f a
  | Raise e => Raise e
  end.
#[global] Instance res_fmap : FMap res := fun A B f m =>
  match m with
  | Return a => Return (f a)
  | Raise e => Raise e
  end.

(** Code that runs on an object and emits as it goes: a method that
    updates [self] and prints lines, a generator that stores attributes on
    [self] and yields metrics. [S] is the object, [W] what is emitted;
    both are kept when an exception is raised. *)
Definition eff (S W A : Type) : Type := S -> S * list W * res A.

#[global] Instance eff_ret {S W} : MRet (eff S W) := fun A a s => (s, [], Return a).
#[global] Instance eff_bind {S W} : MBind (eff S W) := fun A B k m s =>
  match m s with
  | (s1, out1, Return a) =>
      let '(s2, out2, r) := k a s1 in (s2, (out1 ++ out2)%list, r)
  | (s1, out1, Raise e) => (s1, out1, Raise e)
  end.

Definition lift {S W A} (r : res A) : eff S W A := fun s => (s, [], r).
Definition raise {S W A} (e : exn) : eff S W A := fun s => (s, [], Raise e).
Definition emit {S W} (w : W) : eff S W unit := fun s => (s, [w], Return tt).
Definition self {S W} : eff S W S := fun s => (s, [], Return s).
Definition update {S W} (f : S -> S) : eff S W unit := fun s => (f s, [], Return tt).

(** [print(x)] writes a line; [yield x] hands a value to the consumer. *)
Definition print {S} (line : string) : eff S string unit := emit line.
Definition yield {S W} (w : W) : eff S W unit := emit w.
Definition print_all {S} (lines : list string) : eff S string unit :=
  fun s => (s, lines, Return tt).

(** Values as the device client and the command line deliver them. *)
Inductive pyval : Type :=
| PNone
| PBool (b : bool)
| PInt (z : Z)
| PFloat (f : spec_float)
| PStr (s : string).

(** ** Binary64 floats *)

Definition prec : Z := 53.
Definition emax : Z := 1024.
Definition float_mul : spec_float -> spec_float -> spec_float := SFmul prec emax.
Definition float_div : spec_float -> spec_float -> spec_float := SFdiv prec emax.
Definition float_inf : spec_float := S754_infinity false.
Definition float_neg_inf : spec_float := S754_infinity true.

(** [round_Z m e] is the float nearest to [m * 2^e] (ties to even). *)
Definition round_Z (m e : Z) : spec_float := binary_normalize prec emax m e false.

(** [float(n)] for an int [n]. *)
Definition float_of_int (z : Z) : res spec_float :=
  match round_Z z 0 with
  | S754_infinity _ => Raise (OverflowError "int too large to convert to float")
  | f => Return f
  end.

(** The float nearest to [n / d], for [0 < n] and [0 < d]: the quotient is
    taken to more than 64 bits and the remainder kept as a sticky bit. *)
Definition round_ratio (n d : Z) : spec_float :=
  let s := 66 + Z.log2 d - Z.log2 n in
  let '(n', d') := if 0 <=? s then (Z.shiftl n s, d) else (n, Z.shiftl d (- s)) in
  let q := n' / d' in
  let sticky := if n' mod d' =? 0 then 0 else 1 in
  round_Z (2 * q + sticky) (- s - 1).

Definition float_neg (neg : bool) (f : spec_float) : spec_float :=
  if neg then SFopp f else f.

(** The float nearest to [c * 10^k], for [0 <= c]. *)
Definition round_decimal (c k : Z) : spec_float :=
  if c =? 0 then S754_zero false
  else if 0 <=? k then round_Z (c * 10 ^ k) 0
  else round_ratio c (10 ^ (- k)).

(** ** Numbers compared exactly

    Python compares an int with a float by value, without rounding the
    int; [xnum] is the value of a number on the extended rational line. *)
Inductive xnum : Type :=
| XNaN
| XInf (neg : bool)
| XFin (q : Q).

Definition Q_of_float_parts (s : bool) (m : positive) (e : Z) : Q :=
  (inject_Z (cond_Zopp s (Zpos m)) * Qpower 2 e)%Q.

Definition xnum_of_float (f : spec_float) : xnum :=
  match f with
  | S754_zero _ => XFin 0
  | S754_infinity s => XInf s
  | S754_nan => XNaN
  | S754_finite s m e => XFin (Q_of_float_parts s m e)
  end.

Definition Qltb (a b : Q) : bool :=
  match Qcompare a b with Lt => true | _ => false end.

(** [a < b]; a NaN is below nothing and above nothing. *)
Definition xlt (a b : xnum) : bool :=
  match a, b with
  | XNaN, _ | _, XNaN => false
  | XInf true, XInf true => false
  | XInf true, _ => true
  | _, XInf true => false
  | XInf false, _ => false
  | XFin _, XInf false => true
  | XFin p, XFin q => Qltb p q
  end.

(** The numbers: bool is a subclass of int. *)
Definition xnum_of_pyval (v : pyval) : option xnum :=
  match v with
  | PBool b => Some (XFin (if b then 1 else 0))
  | PInt z => Some (XFin (inject_Z z))
  | PFloat f => Some (xnum_of_float f)
  | PNone | PStr _ => None
  end.

(** A number literal read by [int()] or [float()]. *)
Inductive number : Type :=
| NInt (z : Z)
| NFloat (f : spec_float).

Definition xnum_of_number (n : number) : xnum :=
  match n with
  | NInt z => XFin (inject_Z z)
  | NFloat f => xnum_of_float f
  end.

(** [v < n] and [v > n] for a value [v] and a number [n]. *)
Definition py_lt (v : pyval) (n : number) : res bool :=
  match xnum_of_pyval v with
  | Some x => Return (xlt x (xnum_of_number n))
  | None => Raise (TypeError "'<' not supported between instances")
  end.

Definition py_gt (v : pyval) (n : number) : res bool :=
  match xnum_of_pyval v with
  | Some x => Return (xlt (xnum_of_number n) x)
  | None => Raise (TypeError "'>' not supported between instances")
  end.

(** [a - b] on values. *)
Definition py_sub (a b : pyval) : res pyval :=
  let as_int v := match v with
                  | PInt z => Some z
                  | PBool b => Some (if b then 1 else 0)
                  | _ => None
                  end in
  match a, b with
  | PFloat x, PFloat y => Return (PFloat (SFsub prec emax x y))
  | PFloat x, _ =>
      match as_int b with
      | Some z => y ← float_of_int z; Return (PFloat (SFsub prec emax x y))
      | None => Raise (TypeError "unsupported operand type(s) for -")
      end
  | _, PFloat y =>
      match as_int a with
      | Some z => x ← float_of_int z; Return (PFloat (SFsub prec emax x y))
      | None => Raise (TypeError "unsupported operand type(s) for -")
      end
  | _, _ =>
      match as_int a, as_int b with
      | Some x, Some y => Return (PInt (x - y))
      | _, _ => Raise (TypeError "unsupported operand type(s) for -")
      end
  end.

(** ** Strings *)

Definition code (c : ascii) : Z := Z.of_N (N_of_ascii c).
Definition is_digit (c : ascii) : bool := (48 <=? code c) && (code c <=? 57).
Definition digit_val (c : ascii) : Z := code c - 48.
Definition is_alpha (c : ascii) : bool :=
  ((65 <=? code c) && (code c <=? 90)) || ((97 <=? code c) && (code c <=? 122)).
(** Whitespace as [int()] and [float()] see it in an ASCII string: tab to
    carriage return, and the space. *)
Definition is_space (c : ascii) : bool :=
  ((9 <=? code c) && (code c <=? 13)) || (code c =? 32).
Definition lower (c : ascii) : ascii :=
  if (65 <=? code c) && (code c <=? 90) then ascii_of_N (N_of_ascii c + 32) else c.

Definition chars : string -> list ascii := list_ascii_of_string.
Definition text : list ascii -> string := string_of_list_ascii.

Definition all_digits (s : string) : bool := forallb is_digit (chars s).

Fixpoint contains (c : ascii) (s : string) : bool :=
  match s with
  | EmptyString => false
  | String d s' => if Ascii.eqb c d then true else contains c s'
  end.

Fixpoint drop_spaces (l : list ascii) : list ascii :=
  match l with
  | c :: l' => if is_space c then drop_spaces l' else l
  | [] => []
  end.

Definition strip (l : list ascii) : list ascii :=
  rev (drop_spaces (rev (drop_spaces l))).

(** The value of a run of decimal digits, most significant first. *)
Definition digits_value (l : list ascii) : Z :=
  fold_left (fun acc c => 10 * acc + digit_val c) l 0.

(** Maximal run of digits at the front, and what follows it. *)
Fixpoint span_digits (l : list ascii) : list ascii * list ascii :=
  match l with
  | c :: l' =>
      if is_digit c then let '(d, r) := span_digits l' in (c :: d, r) else ([], l)
  | [] => ([], [])
  end.

(** Underscores in a number literal stand between two digits; they are
    dropped before the literal is read. [prev] is the previous character. *)
Fixpoint drop_underscores (prev : option ascii) (l : list ascii) : option (list ascii) :=
  let after_digit := match prev with Some p => is_digit p | None => false end in
  let after_underscore := match prev with Some p => Ascii.eqb p "_" | None => false end in
  match l with
  | [] => if after_underscore then None else Some []
  | c :: l' =>
      if Ascii.eqb c "_" then
        if after_digit then drop_underscores (Some c) l' else None
      else if after_underscore && negb (is_digit c) then None
      else cons c <$> drop_underscores (Some c) l'
  end.

Definition take_sign (l : list ascii) : bool * list ascii :=
  match l with
  | c :: l' => if Ascii.eqb c "-" then (true, l')
               else if Ascii.eqb c "+" then (false, l') else (false, l)
  | [] => (false, [])
  end.

Definition quoted (s : string) : string := "'" +:+ s +:+ "'".

(** ** [int(s)] *)

Definition read_int (s : string) : option Z :=
  let '(neg, body) := take_sign (strip (chars s)) in
  match drop_underscores None body with
  | Some ((_ :: _) as ds) =>
      if forallb is_digit ds then Some (cond_Zopp neg (digits_value ds)) else None
  | _ => None
  end.

Definition py_int (s : string) : res Z :=
  match read_int s with
  | Some z => Return z
  | None => Raise (ValueError ("invalid literal for int() with base 10: " +:+ quoted s))
  end.

(** ** [float(s)] *)

(** The exponent part: empty, or [e] or [E], an optional sign and digits. *)
Definition read_exponent (l : list ascii) : option Z :=
  match l with
  | [] => Some 0
  | c :: l' =>
      if Ascii.eqb (lower c) "e" then
        let '(neg, ds) := take_sign l' in
        match ds with
        | _ :: _ => if forallb is_digit ds then Some (cond_Zopp neg (digits_value ds)) else None
        | [] => None
        end
      else None
  end.

(** An unsigned decimal literal: digits, an optional point and digits (one
    digit at least), an optional exponent. *)
Definition read_decimal (l : list ascii) : option spec_float :=
  let '(ip, r) := span_digits l in
  let '(fp, r') :=
    match r with
    | c :: r0 => if Ascii.eqb c "." then span_digits r0 else ([], r)
    | [] => ([], r)
    end in
  match (ip ++ fp)%list with
  | [] => None
  | ds => x ← read_exponent r'; Some (round_decimal (digits_value ds) (x - Z.of_nat (length fp)))
  end.

Definition read_float (s : string) : option spec_float :=
  l ← drop_underscores None (strip (chars s));
  let '(neg, body) := take_sign l in
  let word := text (map lower body) in
  if String.eqb word "inf" || String.eqb word "infinity" then Some (S754_infinity neg)
  else if String.eqb word "nan" then Some S754_nan
  else float_neg neg <$> read_decimal body.

Definition float_of_str (s : string) : res spec_float :=
  match read_float s with
  | Some f => Return f
  | None => Raise (ValueError ("could not convert string to float: " +:+ quoted s))
  end.

(** [float(v)] *)
Definition py_float (v : pyval) : res spec_float :=
  match v with
  | PFloat f => Return f
  | PInt z => float_of_int z
  | PBool b => float_of_int (if b then 1 else 0)
  | PStr s => float_of_str s
  | PNone => Raise (TypeError "float() argument must be a string or a real number, not 'NoneType'")
  end.

(** ** [str(x)] for a float [x]: the shortest decimal that reads back as [x] *)

Definition string_of_Z (z : Z) : string := NilZero.string_of_int (Z.to_int z).

Fixpoint zeros (n : nat) : string :=
  match n with O => "" | S n' => String "0" (zeros n') end.

Definition strip_trailing_zeros (s : string) : string :=
  let fix go (l : list ascii) : list ascii :=
    match l with
    | c :: l' => if Ascii.eqb c "0" then go l' else l
    | [] => []
    end in
  text (rev (go (rev (chars s)))).

(** The decimal exponent [p] of [n/d]: [10^(p-1) <= n/d < 10^p]. *)
Fixpoint decimal_exponent (fuel : nat) (n d p : Z) : Z :=
  match fuel with
  | O => p
  | S fuel' =>
      let below := if 0 <=? p - 1 then n <? d * 10 ^ (p - 1) else n * 10 ^ (1 - p) <? d in
      let reached := if 0 <=? p then n <? d * 10 ^ p else n * 10 ^ (- p) <? d in
      if below then decimal_exponent fuel' n d (p - 1)
      else if reached then p
      else decimal_exponent fuel' n d (p + 1)
  end.

Section ShortestDigits.
(** The float is [m * 2^e]; what rounds to it lies between [lo] and [hi],
    in units of [2^(e-2)], the ends included when [m] is even. *)
Variables (m : positive) (e : Z).

Let v4 : Z := 4 * Zpos m.
Let lo : Z :=
  if (Zpos m =? 2 ^ (prec - 1)) && (3 - emax - prec <? e) then v4 - 1 else v4 - 2.
Let hi : Z := v4 + 2.
Let inclusive : bool := Z.even (Zpos m).

(** [2^(e-2)] as the fraction [un/ud]. *)
Let un : Z := if 0 <=? e - 2 then 2 ^ (e - 2) else 1.
Let ud : Z := if 0 <=? e - 2 then 1 else 2 ^ (2 - e).

Definition decpt : Z :=
  decimal_exponent 800 (v4 * un) ud ((Z.log2 (Zpos m) + e) * 30103 / 100000).

(** The [n]-digit decimal [c * 10^k] nearest to the float, if one reads
    back as it. [c * 10^k] is compared with [x * 2^(e-2)] as [c * t]
    with [x * u]. *)
Definition candidate (n : Z) : option (Z * Z) :=
  let k := decpt - n in
  let t := (if 0 <=? k then 10 ^ k else 1) * ud in
  let u := un * (if 0 <=? k then 1 else 10 ^ (- k)) in
  let c := (v4 * u) / t in
  let inside_lo := if inclusive then lo * u <=? c * t else lo * u <? c * t in
  let inside_hi := if inclusive then (c + 1) * t <=? hi * u else (c + 1) * t <? hi * u in
  let below := v4 * u - c * t in
  let above := (c + 1) * t - v4 * u in
  match inside_lo, inside_hi with
  | true, true =>
      if below <? above then Some (c, k)
      else if above <? below then Some (c + 1, k)
      else Some (if Z.even c then c else c + 1, k)
  | true, false => Some (c, k)
  | false, true => Some (c + 1, k)
  | false, false => None
  end.

Fixpoint shortest (fuel : nat) (n : Z) : Z * Z :=
  match fuel with
  | O => (v4 * un, 0)
  | S fuel' =>
      match candidate n with
      | Some ck => ck
      | None => shortest fuel' (n + 1)
      end
  end.

(** The digits, without trailing zeros, and the position of the point
    counted from their start. *)
Definition digits_and_point : string * Z :=
  let '(c, k) := shortest 17 1 in
  let ds := string_of_Z c in
  (strip_trailing_zeros ds, Z.of_nat (String.length ds) + k).
End ShortestDigits.

Definition format_exponent (x : Z) : string :=
  let ds := string_of_Z (Z.abs x) in
  (if x <? 0 then "-" else "+") +:+ (if Z.abs x <? 10 then "0" +:+ ds else ds).

Definition format_finite (m : positive) (e : Z) : string :=
  let '(ds, pt) := digits_and_point m e in
  let n := Z.of_nat (String.length ds) in
  if (pt <=? -4) || (16 <? pt) then
    let frac := match ds with
                | String c EmptyString => String c EmptyString
                | String c rest => String c ("." +:+ rest)
                | EmptyString => ""
                end in
    frac +:+ "e" +:+ format_exponent (pt - 1)
  else if pt <=? 0 then "0." +:+ zeros (Z.to_nat (- pt)) +:+ ds
  else if n <=? pt then ds +:+ zeros (Z.to_nat (pt - n)) +:+ ".0"
  else substring 0 (Z.to_nat pt) ds +:+ "." +:+ substring (Z.to_nat pt) (Z.to_nat (n - pt)) ds.

Definition float_str (f : spec_float) : string :=
  match f with
  | S754_nan => "nan"
  | S754_infinity s => if s then "-inf" else "inf"
  | S754_zero s => if s then "-0.0" else "0.0"
  | S754_finite s m e => (if s then "-" else "") +:+ format_finite m e
  end.

(** ** [re.sub] for the pattern [(?P<value>\d+)(?P<unit>[%])]

    A match is a maximal run of digits with a percent sign right after
    it; [repl] receives the two groups. [run] is the run of digits read
    so far. *)
Fixpoint sub_percent (repl : string -> string -> res string)
    (run : list ascii) (l : list ascii) : res string :=
  match l with
  | [] => Return (text run)
  | c :: l' =>
      if is_digit c then sub_percent repl (run ++ [c])%list l'
      else if Ascii.eqb c "%" && match run with [] => false | _ :: _ => true end then
        r ← repl (text run) "%";
        rest ← sub_percent repl [] l';
        Return (r +:+ rest)
      else
        rest ← sub_percent repl [] l';
        Return (text run +:+ String c rest)
  end.

Definition re_sub_percent (repl : string -> string -> res string) (s : string) : res string :=
  sub_percent repl [] (chars s).

End Py.

(* ===================================================================== *)
(** * The nagiosplugin library, as far as the plugin calls it             *)
(* ===================================================================== *)

(** The plugin imports nagiosplugin; the library is not part of its
    sources. What the plugin needs of it is modelled from the
    specification, which describes it as the threshold and aggregation
    engine (sections 3, 4, 6 and 7). The error names of the spec are
    not Python classes; the exceptions below are the ones Python raises. *)

Module Nagios.
Import Py.

(** Modelled from the spec: the four states of a result and of a check
    ([nagiosplugin.state], imported by the plugin, is not in its sources). *)
Inductive ServiceState : Type := OK | WARNING | CRITICAL | UNKNOWN.

#[global] Instance ServiceState_eq_dec : EqDecision ServiceState.
Proof. solve_decision. Defined.

(** Modelled from the spec: the exit code of a state (section 6; the
    runtime of nagiosplugin is not in the sources): 0/1/2/3 for
    OK/WARNING/CRITICAL/UNKNOWN. *)
Definition exit_code (s : ServiceState) : Z :=
  match s with OK => 0 | WARNING => 1 | CRITICAL => 2 | UNKNOWN => 3 end.

(** Modelled from the spec: a sample produced by a probe
    ([nagiosplugin.Metric], not in the sources); section 3. *)
Record Metric : Type := {
  name : string;
  value : pyval;
  uom : option string;
  min : option pyval;
  max : option pyval;
}.

(** ** Ranges *)

(** Modelled from the spec: a threshold interval ([nagiosplugin.Range],
    not in the sources); section 3. An open side is an infinite bound. *)
Record Range : Type := {
  invert : bool;
  start : number;
  end_ : number;
}.

(** Modelled from the spec: the range of an empty spec, which never
    alerts (section 4.1). *)
Definition never_alert : Range :=
  {| invert := false; start := NFloat float_neg_inf; end_ := NFloat float_inf |}.

(** Modelled from the spec: a bound of a range ([nagiosplugin.Range] is
    not in the sources); the spec asks for a number and refuses anything
    else. It is the default when empty, else a Python number ([float()] when
    it has a point, [int()] otherwise). *)
Definition parse_atom (atom : string) (default : number) : res number :=
  if String.eqb atom "" then Return default
  else if contains "." atom then NFloat <$> float_of_str atom
  else NInt <$> py_int atom.

(** Modelled from the spec: the two sides of [N:M] (section 4.1), as
    [s.split(':')] unpacked into two names gives them; a second colon is
    refused. *)
Fixpoint split_colon (s : string) : string * string :=
  match s with
  | EmptyString => ("", "")
  | String c s' =>
      if Ascii.eqb c ":" then ("", s')
      else let '(a, b) := split_colon s' in (String c a, b)
  end.

Definition split_bounds (s : string) : res (string * string) :=
  if contains ":" s then
    let '(a, b) := split_colon s in
    if contains ":" b then Raise (ValueError "too many values to unpack (expected 2)")
    else Return (a, b)
  else Return ("", s).

(** Modelled from the spec: [Range(spec)] ([nagiosplugin.Range], not in
    the sources); the grammar of section 4.1: [N], [N:], [:N], [N:M],
    [@N:M], [~] for an open side, the empty spec never alerts, and a
    bound that is not a number, or [M < N], is refused when parsed. A
    start left out is 0 in [N] and open in [:N], which alerts above [N]
    only. *)
Definition parse (spec : string) : res Range :=
  if String.eqb spec "" then Return never_alert
  else
    let '(inv, body) :=
      match spec with
      | String c rest => if Ascii.eqb c "@" then (true, rest) else (false, spec)
      | EmptyString => (false, spec)
      end in
    '(a, b) ← split_bounds body;
    lo ← (if String.eqb a "~" then Return (NFloat float_neg_inf)
          else parse_atom a (if contains ":" body then NFloat float_neg_inf else NInt 0));
    hi ← (if String.eqb b "~" then Return (NFloat float_inf) else parse_atom b (NFloat float_inf));
    if xlt (xnum_of_number hi) (xnum_of_number lo)
    then Raise (ValueError "start must not be greater than end")
    else Return {| invert := inv; start := lo; end_ := hi |}.

(** Modelled from the spec: [evaluate(value)] of a Range (section 4.1,
    [nagiosplugin.Range] is not in the sources): true when the value is in
    the alert zone, below the start or above the end, and the other way
    round for an inverted range. *)
Definition Range_evaluate (r : Range) (v : pyval) : res bool :=
  below ← py_lt v (start r);
  above ← py_gt v (end_ r);
  Return (xorb (below || above) (invert r)).

(** ** Results and performance data *)

(** Modelled from the spec: the optional hint of a result (section 3):
    none, the range that was violated, or a text. *)
Inductive hint : Type :=
| NoHint
| OutsideRange (r : Range)
| Text (s : string).

(** Modelled from the spec: the outcome of evaluating one metric
    ([nagiosplugin.Result], not in the sources); section 3. *)
Record Result : Type := {
  state : ServiceState;
  result_hint : hint;
  metric : option Metric;
}.

(** Modelled from the spec: a performance datum
    ([nagiosplugin.Performance], not in the sources); section 4.3. *)
Record Performance : Type := {
  label : string;
  perf_value : pyval;
  perf_uom : option string;
  warn : option Range;
  crit : option Range;
  perf_min : option pyval;
  perf_max : option pyval;
}.

(** ** ScalarContext *)

(** Modelled from the spec: the scalar-threshold context
    ([nagiosplugin.ScalarContext], not in the sources); section 4.3. *)
Record ScalarContext : Type := {
  sc_name : string;
  sc_warning : Range;
  sc_critical : Range;
}.

(** Modelled from the spec: [ScalarContext(name, warning, critical)]
    (not in the sources); section 4.3: an absent threshold never
    alerts. *)
Definition new_ScalarContext (n : string) (w c : option string) : res ScalarContext :=
  wr ← parse (default "" w);
  cr ← parse (default "" c);
  Return {| sc_name := n; sc_warning := wr; sc_critical := cr |}.

(** Modelled from the spec: the tiers of [ScalarContext.evaluate]
    (section 4.3; [nagiosplugin.ScalarContext] is not in the sources):
    CRITICAL if the critical range alerts, else WARNING if the warning
    range alerts, else OK. *)
Definition scalar_evaluate (w c : Range) (m : Metric) : res Result :=
  is_crit ← Range_evaluate c (value m);
  if is_crit : bool then
    Return {| state := CRITICAL; result_hint := OutsideRange c; metric := Some m |}
  else
    is_warn ← Range_evaluate w (value m);
    if is_warn : bool then
      Return {| state := WARNING; result_hint := OutsideRange w; metric := Some m |}
    else Return {| state := OK; result_hint := NoHint; metric := Some m |}.

(** Modelled from the spec: [ScalarContext.performance] (section 4.3):
    value, unit, the two thresholds, min and max. *)
Definition scalar_performance (w c : Range) (m : Metric) : Performance :=
  {| label := name m; perf_value := value m; perf_uom := uom m;
     warn := Some w; crit := Some c; perf_min := min m; perf_max := max m |}.

(** ** The overall verdict *)

(** Modelled from the spec: the reduction of the results to one status
    (the check runner of nagiosplugin is not in the sources). Section 3:
    the maximum severity with OK < WARNING < CRITICAL, UNKNOWN winning
    only when there is no WARNING and no CRITICAL; the glossary: UNKNOWN
    is the fallback when nothing was decided. *)
Definition severity (s : ServiceState) : Z :=
  match s with OK => 0 | UNKNOWN => 1 | WARNING => 2 | CRITICAL => 3 end.

Definition worse (a b : ServiceState) : ServiceState :=
  if severity a <? severity b then b else a.

Definition overall (states : list ServiceState) : ServiceState :=
  match states with
  | [] => UNKNOWN
  | s :: rest => fold_left worse rest s
  end.

(** Modelled from the spec: the result a failing check is summarised by
    (the summary of nagiosplugin is not in the sources; section 4.4 asks
    for a summary made from results): the first result that has the
    overall state. *)
Definition first_significant (results : list Result) : option Result :=
  find (fun r => bool_decide (state r = overall (map state results))) results.

(** Modelled from the spec: [results[name]], the result of the metric
    of that name ([nagiosplugin.Results], not in the sources). *)
Definition result_by_name (results : list Result) (n : string) : res Result :=
  match find (fun r => match metric r with
                       | Some m => String.eqb (name m) n
                       | None => false
                       end) results with
  | Some r => Return r
  | None => Raise (KeyError n)
  end.

(** ** The check runner *)

(** Modelled from the spec: what the one-line summary (section 6) is
    made of: the results whose texts are joined, or the error a failed
    probe is reported with. The wording of the texts is left out. *)
Inductive summary_text : Type :=
| OfResults (rs : list Result)
| OfException (e : exn).

(** Modelled from the spec: the summary object of a check
    ([nagiosplugin.Summary], not in the sources): one text for a check
    that is OK, one for a check that is not. By default the first result,
    and the first significant one. *)
Record Summary : Type := {
  ok : list Result -> res summary_text;
  problem : list Result -> res summary_text;
}.

Definition default_Summary : Summary :=
  {| ok := fun results => Return (OfResults (firstn 1 results));
     problem := fun results => Return (OfResults (option_list (first_significant results))) |}.

(** Modelled from the spec: how a command ends (sections 6 and 7): with
    a status, a summary, performance data and an exit code, or with an
    exception nobody caught. *)
Inductive outcome : Type :=
| Exit (status : ServiceState) (summary : summary_text)
       (perfdata : list Performance) (code : Z)
| Traceback (e : exn).

(** Modelled from the spec: the interface of a resource
    ([nagiosplugin.Resource], not in the sources): its probe yields
    metrics, then ends or raises; the values it stored on itself are read
    back by name. *)
Class Resource (R : Type) : Type := {
  probe : eff R Metric unit;
  getattr : R -> string -> res pyval;
}.

(** Modelled from the spec: the interface of a context
    ([nagiosplugin.Context], not in the sources); section 4.3: it turns a
    metric into a result and a performance datum. A context of the plugin
    may update itself and write to standard output on the way. *)
Class Context (R C : Type) : Type := {
  context_name : C -> string;
  evaluate : Metric -> R -> eff C string Result;
  performance : Metric -> R -> eff C string Performance;
}.

Section Check.
Context {R C : Type} `{!Resource R} `{!Context R C}.

(** Modelled from the spec: a check ([nagiosplugin.Check], not in the
    sources): a resource, the contexts by name, a summary. *)
Record Check : Type := {
  resource : R;
  contexts : gmap string C;
  summary : Summary;
}.

Definition new_Check (r : R) : Check :=
  {| resource := r; contexts := ∅; summary := default_Summary |}.

Definition add_context (c : C) (chk : Check) : Check :=
  {| resource := resource chk;
     contexts := <[context_name c := c]> (contexts chk);
     summary := summary chk |}.

Definition add_summary (s : Summary) (chk : Check) : Check :=
  {| resource := resource chk; contexts := contexts chk; summary := s |}.

(** Modelled from the spec: steps 2 and 3 of the aggregator (section
    4.4; the check runner of nagiosplugin is not in the sources): each
    metric goes to the context of its name, a metric without one is
    skipped, results and performance data are kept in yield order. *)
Fixpoint evaluate_metrics (r : R) (ms : list Metric)
    : eff (gmap string C) string (list Result * list Performance) :=
  match ms with
  | [] => mret ([], [])
  | m :: ms' =>
      cs ← self;
      match cs !! name m with
      | None => evaluate_metrics r ms'
      | Some c =>
          let '(c', out, evaluated) :=
            (result ← evaluate m r; perf ← performance m r; mret (result, perf)) c in
          update (insert (name m) c');;
          print_all out;;
          '(result, perf) ← lift evaluated;
          '(results, perfs) ← evaluate_metrics r ms';
          mret (result :: results, perf :: perfs)
      end
  end.

(** Modelled from the spec: [check.main()] (section 4.4): the metrics of
    the probe are collected, evaluated, and reduced to the overall
    status, its exit code and the summary. The error policy of that
    section: an error of the probe is surfaced as UNKNOWN with the error
    as the message; an error of a context, or of the summary, is not
    caught and leaves the command. *)
Definition main (chk : Check) : list string * outcome :=
  match probe (resource chk) with
  | (_, _, Raise e) => ([], Exit UNKNOWN (OfException e) [] (exit_code UNKNOWN))
  | (r, metrics, Return _) =>
      match evaluate_metrics r metrics (contexts chk) with
      | (_, out, Raise e) => (out, Traceback e)
      | (_, out, Return (results, perfs)) =>
          let st := overall (map state results) in
          let text := if bool_decide (st = OK) then ok (summary chk) results
                      else problem (summary chk) results in
          match text with
          | Raise e => (out, Traceback e)
          | Return t => (out, Exit st t perfs (exit_code st))
          end
      end
  end.
End Check.

(** Modelled from the spec: the [@nagiosplugin.guarded] decorator of a
    command (not in the sources), which runs the command under the
    top-level runner of section 7. Errors are recovered at the probe
    boundary only, in [main]; whatever else is raised in the command, a
    threshold that does not parse or an error of a context, bubbles
    through the runner and ends the process with a failure that is not
    the status UNKNOWN. *)
Definition guarded (run : list string * outcome) : list string * outcome := run.

End Nagios.

(* ===================================================================== *)
(** * The plugin: check_routeros.py                                       *)
(* ===================================================================== *)

Module RouterOS.
Import Py Nagios.

(** A row of a device reply: field name to value. *)
Abbreviation response := (gmap string pyval).

(** [d[key]] *)
Definition getitem (d : response) (key : string) : res pyval :=
  match d !! key with
  | Some v => Return v
  | None => Raise (KeyError key)
  end.

(** [results[0]] and [results[-1]] of the tuple of rows. *)
Definition first_row (results : list response) : res response :=
  match results with
  | row :: _ => Return row
  | [] => Raise (IndexError "tuple index out of range")
  end.

Definition last_row (results : list response) : res response :=
  match last results with
  | Some row => Return row
  | None => Raise (IndexError "tuple index out of range")
  end.

(** ** RouterOSCheckResource

    The device is outside the plugin: [device] is what [_connect_api()]
    followed by the API call of the probe hands back, the rows of the
    reply or the exception raised on the way. *)
Record RouterOSCheckResource : Type := {
  _cmd_options : gmap string pyval;
  device : res (list response);
}.

(** ** ScalarPercentContext *)

Record ScalarPercentContext : Type := {
  spc_name : string;
  _warning : option string;
  _critical : option string;
  _total_name : string;
  warning : option Range;
  critical : option Range;
}.

(** [__init__]: the thresholds are kept as text; the ranges start as None. *)
Definition new_ScalarPercentContext (n total_name : string)
    (w c : option string) : ScalarPercentContext :=
  {| spc_name := n; _warning := w; _critical := c; _total_name := total_name;
     warning := None; critical := None |}.

Definition set_warning (r : Range) (c : ScalarPercentContext) : ScalarPercentContext :=
  {| spc_name := spc_name c; _warning := _warning c; _critical := _critical c;
     _total_name := _total_name c; warning := Some r; critical := critical c |}.

Definition set_critical (r : Range) (c : ScalarPercentContext) : ScalarPercentContext :=
  {| spc_name := spc_name c; _warning := _warning c; _critical := _critical c;
     _total_name := _total_name c; warning := warning c; critical := Some r |}.

(** The inner function [replace(m)] of [_prepare_ranges], on the groups
    [value] and [unit] of the match. *)
Definition replace (total_value : pyval) (value unit : string) : res string :=
  if String.eqb unit "%" then
    total ← py_float total_value;
    percent ← py_float (PStr value);
    hundred ← float_of_int 100;
    Return (float_str (float_mul total (float_div percent hundred)))
  else Raise (ValueError "Unable to convert type").

(** [regex.sub(replace, spec)] *)
Definition regex_sub (total_value : pyval) (spec : option string) : res string :=
  match spec with
  | Some s => re_sub_percent (replace total_value) s
  | None => Raise (TypeError "expected string or bytes-like object")
  end.

Section Methods.
Context {R : Type} `{!Resource R}.

Definition _prepare_ranges (metric : Metric) (resource : R)
    : eff ScalarPercentContext string unit :=
  this ← self;
  match warning this, critical this with
  | Some _, Some _ => mret tt
  | _, _ =>
      total_value ← lift (getattr resource (_total_name this));
      w ← lift (regex_sub total_value (_warning this));
      print w;;
      c ← lift (regex_sub total_value (_critical this));
      print c;;
      w ← lift (regex_sub total_value (_warning this));
      w ← lift (parse w);
      update (set_warning w);;
      c ← lift (regex_sub total_value (_critical this));
      c ← lift (parse c);
      update (set_critical c)
  end.

(** The inherited [ScalarContext.evaluate] and [.performance], on the
    ranges the instance holds at the time of the call. *)
Definition super_evaluate (metric : Metric) : eff ScalarPercentContext string Result :=
  this ← self;
  match critical this, warning this with
  | Some c, Some w => lift (scalar_evaluate w c metric)
  | _, _ => raise (AttributeError "'NoneType' object has no attribute 'match'")
  end.

Definition super_performance (metric : Metric)
    : eff ScalarPercentContext string Performance :=
  this ← self;
  mret {| label := name metric; perf_value := value metric; perf_uom := uom metric;
          warn := warning this; crit := critical this;
          perf_min := min metric; perf_max := max metric |}.

Definition ScalarPercentContext_evaluate (metric : Metric) (resource : R)
    : eff ScalarPercentContext string Result :=
  _prepare_ranges metric resource;;
  super_evaluate metric.

Definition ScalarPercentContext_performance (metric : Metric) (resource : R)
    : eff ScalarPercentContext string Performance :=
  _prepare_ranges metric resource;;
  super_performance metric.
End Methods.

(** The contexts the commands register. *)
Inductive context : Type :=
| Scalar (c : ScalarContext)
| ScalarPercent (c : ScalarPercentContext).

(** A method of one class run on a [context] that holds such an object. *)
Definition on_percent {A} (c : ScalarPercentContext)
    (m : eff ScalarPercentContext string A) : eff context string A :=
  fun _ => let '(c', out, r) := m c in (ScalarPercent c', out, r).

#[global] Instance context_Context {R} `{!Resource R} : Context R context := {
  context_name c :=
    match c with
    | Scalar sc => sc_name sc
    | ScalarPercent pc => spc_name pc
    end;
  evaluate metric resource := fun c =>
    match c with
    | Scalar sc => lift (scalar_evaluate (sc_warning sc) (sc_critical sc) metric) c
    | ScalarPercent pc => on_percent pc (ScalarPercentContext_evaluate metric resource) c
    end;
  performance metric resource := fun c =>
    match c with
    | Scalar sc => lift (Return (scalar_performance (sc_warning sc) (sc_critical sc) metric)) c
    | ScalarPercent pc => on_percent pc (ScalarPercentContext_performance metric resource) c
    end;
}.

(** ** System Memory *)

Record SystemMemoryResource : Type := {
  memory_base : RouterOSCheckResource;
  memory_total : pyval;
}.

(** [__init__]: [memory_total] starts as None. *)
Definition new_SystemMemoryResource (base : RouterOSCheckResource) : SystemMemoryResource :=
  {| memory_base := base; memory_total := PNone |}.

Definition set_memory_total (v : pyval) (r : SystemMemoryResource) : SystemMemoryResource :=
  {| memory_base := memory_base r; memory_total := v |}.

Definition SystemMemoryResource_probe : eff SystemMemoryResource Metric unit :=
  this ← self;
  results ← lift (device (memory_base this));
  result ← lift (first_row results);
  memory_free ← lift (getitem result "free-memory");
  total ← lift (getitem result "total-memory");
  update (set_memory_total total);;
  yield {| name := "free"; value := memory_free; uom := Some "B";
           min := Some (PInt 0); max := Some total |};;
  used ← lift (py_sub total memory_free);
  yield {| name := "used"; value := used; uom := Some "B";
           min := Some (PInt 0); max := Some total |}.

#[global] Instance SystemMemoryResource_Resource : Resource SystemMemoryResource := {
  probe := SystemMemoryResource_probe;
  getattr r attr :=
    if String.eqb attr "memory_total" then Return (memory_total r)
    else Raise (AttributeError attr);
}.

(** [SystemMemorySummary.ok]: the texts of the named results, joined. *)
Definition SystemMemorySummary_ok (_result_names : list string)
    (results : list Result) : res summary_text :=
  OfResults <$> mapM (result_by_name results) _result_names.

Definition SystemMemorySummary (_result_names : list string) : Summary :=
  {| ok := SystemMemorySummary_ok _result_names;
     problem := problem default_Summary |}.

(** The command [system.memory], with its [guarded] decorator. *)
Definition system_memory (ctx_obj : RouterOSCheckResource) (used : bool)
    (warning critical : string) : list string * outcome :=
  guarded (
    let check := new_Check (new_SystemMemoryResource ctx_obj) in
    let contexts :=
      if used then
        plain ← new_ScalarContext "free" None None;
        Return [Scalar plain;
                ScalarPercent (new_ScalarPercentContext "used" "memory_total"
                                 (Some warning) (Some critical))]
      else
        plain ← new_ScalarContext "used" None None;
        Return [ScalarPercent (new_ScalarPercentContext "free" "memory_total"
                                 (Some (warning +:+ ":")) (Some (critical +:+ ":")));
                Scalar plain] in
    match contexts with
    | Raise e => ([], Traceback e)
    | Return cs =>
        let check := fold_left (fun chk c => add_context c chk) cs check in
        let check := add_summary
                       (SystemMemorySummary (if used then ["used"] else ["free"])) check in
        main check
    end).

(** ** System Uptime *)

Record SystemUptimeResource : Type := {
  uptime_base : RouterOSCheckResource;
}.

(** A run of digits, one at least, and the character [sep] after it: the
    run and what follows [sep]. *)
Definition digits_then (sep : ascii) (l : list ascii) : option (list ascii * list ascii) :=
  match span_digits l with
  | ((_ :: _) as ds, c :: rest) => if Ascii.eqb c sep then Some (ds, rest) else None
  | _ => None
  end.

(** [re.compile(r"(?P<hours>\d+)h(?P<minutes>\d+)m(?P<seconds>\d+)s").match(s)]:
    the three groups when [s] starts with text of that shape. *)
Definition match_uptime (s : string) : option (string * string * string) :=
  '(hours, l1) ← digits_then "h" (chars s);
  '(minutes, l2) ← digits_then "m" l1;
  '(seconds, _) ← digits_then "s" l2;
  Some (text hours, text minutes, text seconds).

Definition SystemUptimeResource_probe : eff SystemUptimeResource Metric unit :=
  this ← self;
  results ← lift (device (uptime_base this));
  result ← lift (first_row results);
  raw ← lift (getitem result "uptime");
  m ← lift (match raw with
            | PStr s => Return (match_uptime s)
            | _ => Raise (TypeError "expected string or bytes-like object")
            end);
  match m with
  | None => raise (ValueError "Unable to parse uptime")
  | Some (hours, minutes, seconds) =>
      h ← lift (py_int hours);
      mi ← lift (py_int minutes);
      sec ← lift (py_int seconds);
      yield {| name := "uptime"; value := PInt (h * 60 * 60 + mi * 60 + sec);
               uom := Some "s"; min := Some (PInt 0); max := None |}
  end.

#[global] Instance SystemUptimeResource_Resource : Resource SystemUptimeResource := {
  probe := SystemUptimeResource_probe;
  getattr r attr := Raise (AttributeError attr);
}.

(** The command [system.uptime], with its [guarded] decorator. *)
Definition system_uptime (ctx_obj : RouterOSCheckResource) : list string * outcome :=
  guarded (
    match new_ScalarContext "uptime" None None with
    | Raise e => ([], Traceback e)
    | Return plain =>
        main (add_context (Scalar plain)
                (new_Check {| uptime_base := ctx_obj |}))
    end).

(** ** Tool Ping Check *)

Record ToolPingCheck : Type := {
  ping_base : RouterOSCheckResource;
  _address : string;
  _max_packages : Z;
}.

Definition new_ToolPingCheck (base : RouterOSCheckResource) (address : string) : ToolPingCheck :=
  {| ping_base := base; _address := address; _max_packages := 1 |}.

(** [strip_time]: digits [0-9] from the start as [time], the rest of the
    line as [uom]; the rest may not run over a line end, except for one
    final line end, which the end anchor leaves out. *)
Definition strip_time (v : pyval) : res (pyval * pyval) :=
  match v with
  | PStr s =>
      let newline := "010"%char in
      match span_digits (chars s) with
      | ((_ :: _) as time, rest) =>
          let one_line := negb (existsb (Ascii.eqb newline) rest) in
          let line := removelast rest in
          let final_newline :=
            match last rest with
            | Some c => Ascii.eqb c newline && negb (existsb (Ascii.eqb newline) line)
            | None => false
            end in
          if one_line then
            t ← py_int (text time); Return (PInt t, PStr (text rest))
          else if final_newline then
            t ← py_int (text time); Return (PInt t, PStr (text line))
          else Return (PNone, PNone)
      | _ => Return (PNone, PNone)
      end
  | _ => Raise (TypeError "expected string or bytes-like object")
  end.

Definition ToolPingCheck_probe : eff ToolPingCheck Metric unit :=
  this ← self;
  results ← lift (device (ping_base this));
  result ← lift (last_row results);
  packet_loss ← lift (getitem result "packet-loss");
  yield {| name := "packet_loss"; value := packet_loss; uom := Some "%";
           min := Some (PInt 0); max := Some (PInt 100) |};;
  sent ← lift (getitem result "sent");
  yield {| name := "sent"; value := sent; uom := None;
           min := Some (PInt 0); max := Some (PInt (_max_packages this)) |};;
  received ← lift (getitem result "received");
  yield {| name := "received"; value := received; uom := None;
           min := Some (PInt 0); max := Some (PInt (_max_packages this)) |};;
  received ← lift (getitem result "received");
  answered ← lift (py_gt received (NInt 0));
  if answered : bool then
    min_rtt ← lift (getitem result "min-rtt");
    rtt_min ← lift (strip_time min_rtt);
    yield {| name := "rtt_min"; value := fst rtt_min; uom := None;
             min := Some (PInt 0); max := None |};;
    max_rtt ← lift (getitem result "max-rtt");
    rtt_max ← lift (strip_time max_rtt);
    yield {| name := "rtt_max"; value := fst rtt_max; uom := None;
             min := Some (PInt 0); max := None |};;
    avg_rtt ← lift (getitem result "avg-rtt");
    rtt_avg ← lift (strip_time avg_rtt);
    yield {| name := "rtt_avg"; value := fst rtt_avg; uom := None;
             min := Some (PInt 0); max := None |};;
    size ← lift (getitem result "size");
    yield {| name := "size"; value := size; uom := None; min := None; max := None |};;
    ttl ← lift (getitem result "ttl");
    yield {| name := "ttl"; value := ttl; uom := None;
             min := Some (PInt 0); max := Some (PInt 255) |}
  else mret tt.

#[global] Instance ToolPingCheck_Resource : Resource ToolPingCheck := {
  probe := ToolPingCheck_probe;
  getattr r attr := Raise (AttributeError attr);
}.

End RouterOS.

(* ===================================================================== *)
(** * The rest of the plugin: connection set-up and the VRRP check        *)
(* ===================================================================== *)

(** Truth values of Python, for [if x], [not x] and [x is True]. *)
Module Truth.
Import Py.

(** [bool(v)]: None, False, zero and the empty string are false. *)
Definition py_truth (v : pyval) : bool :=
  match v with
  | PNone => false
  | PBool b => b
  | PInt z => negb (z =? 0)
  | PFloat (S754_zero _) => false
  | PFloat _ => true
  | PStr s => negb (String.eqb s "")
  end.

(** [v is True]: only the boolean True itself. *)
Definition is_True (v : pyval) : bool :=
  match v with PBool true => true | _ => false end.

(** [v is None] *)
Definition is_None (v : pyval) : bool :=
  match v with PNone => true | _ => false end.

End Truth.

Module Connection.
Import Py Nagios RouterOS Truth.

(** [cli]: the options of the command line, stored under their keys in
    the object of the click context; [use_ssl] goes under ["ssl"]. *)
Definition cli (obj : gmap string pyval)
    (host hostname port username password use_ssl ssl_cafile ssl_capath
     ssl_force_no_certificate ssl_verify ssl_verify_hostname verbose : pyval)
    : gmap string pyval :=
  <["verbose" := verbose]> (
  <["ssl_verify_hostname" := ssl_verify_hostname]> (
  <["ssl_verify" := ssl_verify]> (
  <["ssl_force_no_certificate" := ssl_force_no_certificate]> (
  <["ssl_capath" := ssl_capath]> (
  <["ssl_cafile" := ssl_cafile]> (
  <["ssl" := use_ssl]> (
  <["password" := password]> (
  <["username" := username]> (
  <["port" := port]> (
  <["hostname" := hostname]> (
  <["host" := host]> obj))))))))))).

(** The two verification modes the plugin uses of [ssl]. *)
Inductive verify_mode : Type := CERT_NONE | CERT_REQUIRED.

(** The TLS context as [_connect_api] leaves it. [cafile] and [capath] are
    the keyword arguments given to [ssl.create_default_context]; the
    context it returns checks the host name and requires a certificate. *)
Record ssl_context : Type := {
  cafile : option pyval;
  capath : option pyval;
  check_hostname : bool;
  verify : verify_mode;
  ciphers : option string;
}.

Definition create_default_context (ca_file ca_path : option pyval) : ssl_context :=
  {| cafile := ca_file; capath := ca_path; check_hostname := true;
     verify := CERT_REQUIRED; ciphers := None |}.

Definition set_check_hostname (b : bool) (c : ssl_context) : ssl_context :=
  {| cafile := cafile c; capath := capath c; check_hostname := b;
     verify := verify c; ciphers := ciphers c |}.

Definition set_verify_mode (m : verify_mode) (c : ssl_context) : ssl_context :=
  {| cafile := cafile c; capath := capath c; check_hostname := check_hostname c;
     verify := m; ciphers := ciphers c |}.

Definition set_ciphers (s : string) (c : ssl_context) : ssl_context :=
  {| cafile := cafile c; capath := capath c; check_hostname := check_hostname c;
     verify := verify c; ciphers := Some s |}.


(** The part of [_connect_api] that prepares the TLS context. *)
Definition prepare_ssl_context (opts : gmap string pyval) : res ssl_context :=
  ca_file ← getitem opts "ssl_cafile";
  ca_path ← getitem opts "ssl_capath";
  let ssl_ctx :=
    create_default_context (if py_truth ca_file then Some ca_file else None)
                           (if py_truth ca_path then Some ca_path else None) in
  force ← getitem opts "ssl_force_no_certificate";
  if py_truth force then
    Return (set_ciphers "ADH:@SECLEVEL=0" (set_check_hostname false ssl_ctx))
  else
    verify_cert ← getitem opts "ssl_verify";
    if negb (py_truth verify_cert) then
      Return (set_verify_mode CERT_NONE (set_check_hostname false ssl_ctx))
    else
      verify_host ← getitem opts "ssl_verify_hostname";
      if negb (py_truth verify_host) then Return (set_check_hostname false ssl_ctx)
      else Return ssl_ctx.


(** The inner function [wrap_socket] of [_connect_api]: the server name
    it gives to the TLS context. *)
Definition wrap_socket (this : RouterOSCheckResource) : res pyval :=
  server_hostname ← getitem (_cmd_options this) "hostname";
  if is_None server_hostname then getitem (_cmd_options this) "host"
  else Return server_hostname.

End Connection.

Module Vrrp.
Import Py Nagios RouterOS Truth.

(** ** BooleanContext *)

(** [BooleanContext.performance]: the label of the metric and 1 or 0. *)
Definition BooleanContext_performance (m : Metric) : Performance :=
  {| label := name m; perf_value := PInt (if py_truth (value m) then 1 else 0);
     perf_uom := None; warn := None; crit := None;
     perf_min := None; perf_max := None |}.

(** Modelled from the spec: the [evaluate] a BooleanContext inherits
    ([nagiosplugin.Context], not in the sources); section 4.3: OK
    always. *)
Definition Context_evaluate (m : Metric) : Result :=
  {| state := OK; result_hint := NoHint; metric := Some m |}.

(** ** Interface VRRP *)

Record InterfaceVrrpCheck : Type := {
  vrrp_base : RouterOSCheckResource;
  _name : string;
  backup : pyval;
  disabled : pyval;
  enabled : pyval;
  invalid : pyval;
  master : pyval;
  master_must : pyval;
  running : pyval;
}.

(** [__init__] *)
Definition new_InterfaceVrrpCheck (base : RouterOSCheckResource)
    (n : string) (must : pyval) : InterfaceVrrpCheck :=
  {| vrrp_base := base; _name := n; backup := PNone; disabled := PNone;
     enabled := PNone; invalid := PNone; master := PNone; master_must := must;
     running := PNone |}.

Definition set_disabled (v : pyval) (r : InterfaceVrrpCheck) : InterfaceVrrpCheck :=
  {| vrrp_base := vrrp_base r; _name := _name r; backup := backup r; disabled := v;
     enabled := enabled r; invalid := invalid r; master := master r;
     master_must := master_must r; running := running r |}.

Definition set_enabled (v : pyval) (r : InterfaceVrrpCheck) : InterfaceVrrpCheck :=
  {| vrrp_base := vrrp_base r; _name := _name r; backup := backup r;
     disabled := disabled r; enabled := v; invalid := invalid r; master := master r;
     master_must := master_must r; running := running r |}.

(** [setattr(self, n, v)] for the four states the probe stores. *)
Definition setattr (n : string) (v : pyval) (r : InterfaceVrrpCheck) : InterfaceVrrpCheck :=
  {| vrrp_base := vrrp_base r; _name := _name r;
     backup := if String.eqb n "backup" then v else backup r;
     disabled := disabled r; enabled := enabled r;
     invalid := if String.eqb n "invalid" then v else invalid r;
     master := if String.eqb n "master" then v else master r;
     master_must := master_must r;
     running := if String.eqb n "running" then v else running r |}.

(** The loop of the probe over the names of the states: a name the row
    does not have is passed over. *)
Fixpoint yield_states (result : response) (names : list string)
    : eff InterfaceVrrpCheck Metric unit :=
  match names with
  | [] => mret tt
  | n :: rest =>
      match result !! n with
      | None => yield_states result rest
      | Some v =>
          update (setattr n v);;
          yield {| name := n; value := v; uom := None; min := None; max := None |};;
          yield_states result rest
      end
  end.

Definition InterfaceVrrpCheck_probe : eff InterfaceVrrpCheck Metric unit :=
  this ← self;
  results ← lift (device (vrrp_base this));
  result ← lift (first_row results);
  d ← lift (getitem result "disabled");
  update (set_disabled d);;
  update (set_enabled (PBool (negb (py_truth d))));;
  yield {| name := "disabled"; value := d; uom := None; min := None; max := None |};;
  if negb (py_truth d) then
    yield_states result ["backup"; "invalid"; "master"; "running"]
  else mret tt.

#[global] Instance InterfaceVrrpCheck_Resource : Resource InterfaceVrrpCheck := {
  probe := InterfaceVrrpCheck_probe;
  getattr r attr :=
    if String.eqb attr "backup" then Return (backup r)
    else if String.eqb attr "disabled" then Return (disabled r)
    else if String.eqb attr "enabled" then Return (enabled r)
    else if String.eqb attr "invalid" then Return (invalid r)
    else if String.eqb attr "master" then Return (master r)
    else if String.eqb attr "master_must" then Return (master_must r)
    else if String.eqb attr "running" then Return (running r)
    else Raise (AttributeError attr);
}.

(** [InterfaceVrrpDisabled.evaluate] *)
Definition InterfaceVrrpDisabled_evaluate (m : Metric) (resource : InterfaceVrrpCheck)
    : Result :=
  if is_True (value m) then
    {| state := WARNING; result_hint := Text "VRRP is disabled"; metric := Some m |}
  else {| state := OK; result_hint := NoHint; metric := None |}.

(** [InterfaceVrrpInvalid.evaluate] *)
Definition InterfaceVrrpInvalid_evaluate (m : Metric) (resource : InterfaceVrrpCheck)
    : Result :=
  if is_True (value m) then
    {| state := WARNING; result_hint := Text "VRRP config is invalid"; metric := None |}
  else {| state := OK; result_hint := NoHint; metric := None |}.

(** [InterfaceVrrpMaster.evaluate] *)
Definition InterfaceVrrpMaster_evaluate (m : Metric) (resource : InterfaceVrrpCheck)
    : Result :=
  if negb (py_truth (value m)) && py_truth (master_must resource) then
    {| state := WARNING; result_hint := Text "VRRP interface is not master";
       metric := None |}
  else {| state := OK; result_hint := NoHint; metric := None |}.

(** The contexts [interface_vrrp] registers, each under its name. *)
Inductive vrrp_context : Type :=
| Boolean (n : string)
| Disabled (n : string)
| Invalid (n : string)
| Master (n : string).

#[global] Instance vrrp_context_Context : Context InterfaceVrrpCheck vrrp_context := {
  context_name c :=
    match c with Boolean n | Disabled n | Invalid n | Master n => n end;
  evaluate m resource := fun c =>
    lift (Return match c with
                 | Boolean _ => Context_evaluate m
                 | Disabled _ => InterfaceVrrpDisabled_evaluate m resource
                 | Invalid _ => InterfaceVrrpInvalid_evaluate m resource
                 | Master _ => InterfaceVrrpMaster_evaluate m resource
                 end) c;
  performance m resource := fun c => lift (Return (BooleanContext_performance m)) c;
}.

(** The command [interface.vrrp]; it has no [guarded] decorator. *)
Definition interface_vrrp (ctx_obj : RouterOSCheckResource) (n : string)
    (master_option : pyval) : list string * outcome :=
  let check := new_Check (new_InterfaceVrrpCheck ctx_obj n master_option) in
  let check :=
    fold_left (fun chk c => add_context c chk)
      [Boolean "backup"; Disabled "disabled"; Invalid "invalid"; Master "master";
       Boolean "running"] check in
  main check.

End Vrrp.

Module Ping.
Import Py Nagios RouterOS.

(** The command [tool.ping]; it has no [guarded] decorator. The contexts
    are made one after the other, the thresholds of the packet loss and
    of the ttl from the options, an option not given being None. *)
Definition tool_ping (ctx_obj : RouterOSCheckResource) (address : string)
    (packet_loss_warning packet_loss_critical ttl_warning ttl_critical : option string)
    : list string * outcome :=
  let check := new_Check (new_ToolPingCheck ctx_obj address) in
  let contexts :=
    packet_loss ← new_ScalarContext "packet_loss" packet_loss_warning packet_loss_critical;
    sent ← new_ScalarContext "sent" None None;
    received ← new_ScalarContext "received" None None;
    rtt_avg ← new_ScalarContext "rtt_avg" None None;
    rtt_min ← new_ScalarContext "rtt_min" None None;
    rtt_max ← new_ScalarContext "rtt_max" None None;
    size ← new_ScalarContext "size" None None;
    ttl ← new_ScalarContext "ttl" ttl_warning ttl_critical;
    Return [Scalar packet_loss; Scalar sent; Scalar received; Scalar rtt_avg;
            Scalar rtt_min; Scalar rtt_max; Scalar size; Scalar ttl] in
  match contexts with
  | Raise e => ([], Traceback e)
  | Return cs => main (fold_left (fun chk c => add_context c chk) cs check)
  end.

End Ping.


(* ===================================================================== *)
(** * Properties                                                          *)
(* ===================================================================== *)

Import Py Nagios RouterOS.

(** Unfolds the operations of [eff] in the goal. *)
Ltac run_eff :=
  unfold mbind, mret, eff_bind, eff_ret, self, lift, raise, update, yield, print,
    print_all, emit; simpl.

(** What a finished command shows. *)
Definition status_of (run : list string * outcome) : option ServiceState :=
  match run with
  | (_, Exit st _ _ _) => Some st
  | (_, Traceback _) => None
  end.

Definition exit_code_of (run : list string * outcome) : option Z :=
  match run with
  | (_, Exit _ _ _ code) => Some code
  | (_, Traceback _) => None
  end.

Definition summary_of (run : list string * outcome) : option summary_text :=
  match run with
  | (_, Exit _ t _ _) => Some t
  | (_, Traceback _) => None
  end.

(** The summary is made from the result of the metric called [n]. *)
Definition mentions (n : string) (t : summary_text) : Prop :=
  match t with
  | OfResults rs => exists r m, In r rs /\ metric r = Some m /\ name m = n
  | OfException _ => False
  end.

(** ** The vocabulary of the statements *)

(** Two ranges that alert on the same values. *)
Definition Range_equiv (a b : Range) : Prop :=
  forall v, Range_evaluate a v = Range_evaluate b v.

(** A router that answers with the rows [rows]. *)
Definition router (opts : gmap string pyval) (rows : list response) : RouterOSCheckResource :=
  {| _cmd_options := opts; device := Return rows |}.

Definition memory_row (free total : Z) : response :=
  {[ "free-memory" := PInt free; "total-memory" := PInt total ]}.

Definition bytes (n : string) (v total : Z) : Metric :=
  {| name := n; value := PInt v; uom := Some "B";
     min := Some (PInt 0); max := Some (PInt total) |}.

Definition ping_row_lost : response :=
  {[ "packet-loss" := PInt 100; "sent" := PInt 1; "received" := PInt 0 ]}.

(** A run of digits, one at least. *)
Definition digits (d : list ascii) : Prop := d <> [] /\ forallb is_digit d = true.

(** The text starts with hours, minutes and seconds as [<h>h<m>m<s>s]. *)
Definition has_uptime_shape (s : string) : Prop :=
  exists h m sec rest,
    digits h /\ digits m /\ digits sec /\
    chars s = (h ++ "h"%char :: m ++ "m"%char :: sec ++ "s"%char :: rest)%list.

(** A character of a token: a digit or a letter. *)
Definition plainc (c : ascii) : bool := is_digit c || is_alpha c.




Definition perfdata_of (run : list string * outcome) : option (list Performance) :=
  match run with
  | (_, Exit _ _ perfs _) => Some perfs
  | (_, Traceback _) => None
  end.

(** A metric that has a name and a value only. *)
Definition plain_metric (n : string) (v : pyval) : Metric :=
  {| name := n; value := v; uom := None; min := None; max := None |}.

(** The performance datum of a flag: its label and 1 or 0. *)
Definition flag (n : string) (b : bool) : Performance :=
  {| label := n; perf_value := PInt (if b then 1 else 0); perf_uom := None;
     warn := None; crit := None; perf_min := None; perf_max := None |}.

(** Of the names [names], those the row has, with their values, in the
    order of [names]. *)
Definition present (row : response) (names : list string) : list (string * pyval) :=
  omap (fun n => pair n <$> row !! n) names.

(** The text after the digits of a time: it does not go on with a digit
    and stays on the line. *)
Definition unit_text (u : list ascii) : Prop :=
  match u with c :: _ => is_digit c | [] => false end = false /\
  existsb (Ascii.eqb "010"%char) u = false.

(** A time as the device writes it, digits and then a unit, and the
    number its digits stand for. *)
Definition time_text (s : string) (t : Z) : Prop :=
  exists d u, digits d /\ unit_text u /\ s = text (d ++ u) /\ t = digits_value d.

(** A reply to a ping that was answered. *)
Definition ping_row_answered : response :=
  {[ "packet-loss" := PInt 0; "sent" := PInt 1; "received" := PInt 1;
     "min-rtt" := PStr "12ms"; "max-rtt" := PStr "12ms"; "avg-rtt" := PStr "12ms";
     "size" := PInt 56; "ttl" := PInt 64 ]}.

(** A row of the VRRP table. *)
Definition vrrp_row (d b i m r : pyval) : response :=
  {[ "disabled" := d; "backup" := b; "invalid" := i; "master" := m; "running" := r ]}.

(** ** The builtins on known values *)

Example float_str_known_values :
  map (fun s => float_str <$> float_of_str s)
      ["0.1"; "1e16"; "1e15"; "0.00001"; "0.0001"; "5e-324"; "123456789012345680";
       "9007199254740993"; "-0.0"; "72057594037927936"]
  = map Return
      ["0.1"; "1e+16"; "1000000000000000.0"; "1e-05"; "0.0001"; "5e-324";
       "1.2345678901234568e+17"; "9007199254740992.0"; "-0.0";
       "7.205759403792794e+16"].
Proof. vm_compute. reflexivity. Qed.

(** [100.0 * (29.0 / 100)] is just below 29, as in Python. *)
Example percent_is_rounded :
  replace (PInt 100) "29" "%" = Return "28.999999999999996".
Proof. vm_compute. reflexivity. Qed.

Example py_int_known_values :
  map read_int ["12"; "-5"; " 7_0 "; "50M"; ""; "1__0"; "1e5"]
  = [Some 12; Some (-5); Some 70; None; None; None; None].
Proof. vm_compute. reflexivity. Qed.

Example re_sub_percent_tokens :
  re_sub_percent (fun v u => Return ("<" +:+ v +:+ ">")) "12a34%:5%%6"
  = Return "12a<34>:<5>%6".
Proof. vm_compute. reflexivity. Qed.

(** ** The overall verdict *)

Lemma fold_worse_spec (l : list ServiceState) (a : ServiceState) :
  In (fold_left worse l a) (a :: l) /\
  forall x, In x (a :: l) -> severity x <= severity (fold_left worse l a).
Proof.
  revert a. induction l as [|b l IH]; intros a; simpl.
  - split; [now left|]. intros x [<-|[]]. lia.
  - destruct (IH (worse a b)) as [Hin Hmax]. split.
    + destruct Hin as [Hin|Hin]; [|now right; right].
      rewrite <- Hin. unfold worse. destruct (severity a <? severity b); auto.
    + intros x Hx.
      assert (Hab : severity a <= severity (worse a b) /\
                    severity b <= severity (worse a b)).
      { unfold worse. destruct (Z.ltb_spec (severity a) (severity b)); lia. }
      destruct Hx as [<-|[<-|Hx]].
      * specialize (Hmax (worse a b) (or_introl eq_refl)). lia.
      * specialize (Hmax (worse a b) (or_introl eq_refl)). lia.
      * apply Hmax. now right.
Qed.

(** C2. Of a non-empty list of states the overall verdict is one of them
    and the most severe under OK < WARNING < CRITICAL, UNKNOWN winning
    only when there is neither a WARNING nor a CRITICAL:
    [OK, WARNING, OK, UNKNOWN] gives WARNING and [OK, UNKNOWN, OK] gives
    UNKNOWN. *)
Theorem overall_is_most_severe (s : ServiceState) (rest : list ServiceState) :
  let all := s :: rest in
  In (overall all) all /\
  (overall all = CRITICAL <-> In CRITICAL all) /\
  (overall all = WARNING <-> In WARNING all /\ ~ In CRITICAL all) /\
  (overall all = UNKNOWN <->
     In UNKNOWN all /\ ~ In WARNING all /\ ~ In CRITICAL all) /\
  (overall all = OK <-> forall x, In x all -> x = OK) /\
  overall [OK; WARNING; OK; UNKNOWN] = WARNING /\
  overall [OK; UNKNOWN; OK] = UNKNOWN.
Proof.
  intros all. unfold all, overall.
  destruct (fold_worse_spec rest s) as [Hin Hmax].
  set (o := fold_left worse rest s) in *.
  assert (Hle : forall x, In x (s :: rest) -> severity x <= severity o) by exact Hmax.
  split; [exact Hin|].
  split.
  { split; [now intros <-|].
    intros H. apply Hle in H. destruct o; simpl in H; (reflexivity || lia). }
  split.
  { split.
    - intros Ho. split; [now rewrite <- Ho|].
      intros H. apply Hle in H. rewrite Ho in H. simpl in H. lia.
    - intros [Hw Hc]. apply Hle in Hw.
      destruct o; simpl in Hw; try (reflexivity || lia). now elim Hc. }
  split.
  { split.
    - intros Ho. split; [now rewrite <- Ho|].
      split; intros H; apply Hle in H; rewrite Ho in H; simpl in H; lia.
    - intros (Hu & Hw & Hc). apply Hle in Hu.
      destruct o; simpl in Hu; try (reflexivity || lia); [now elim Hw | now elim Hc]. }
  split.
  { split.
    - intros Ho x Hx. apply Hle in Hx. rewrite Ho in Hx.
      destruct x; simpl in Hx; (reflexivity || lia).
    - intros H. apply H. exact Hin. }
  split; reflexivity.
Qed.

(** ** Comparisons *)

Lemma Qltb_inject_Z (a b : Z) : Qltb (inject_Z a) (inject_Z b) = (a <? b).
Proof.
  unfold Qltb, Qcompare, Z.ltb. simpl. now rewrite !Z.mul_1_r.
Qed.

Lemma xlt_Qeq_l (x : xnum) (p q : Q) : (p == q)%Q -> xlt (XFin p) x = xlt (XFin q) x.
Proof.
  intros H. destruct x as [|[]|r]; simpl; try reflexivity.
  unfold Qltb. now rewrite H.
Qed.

Lemma Range_equiv_end (inv : bool) (lo : number) (f : spec_float) (q : Q) (z : Z) :
  xnum_of_float f = XFin q -> (q == inject_Z z)%Q ->
  Range_equiv {| invert := inv; start := lo; end_ := NFloat f |}
              {| invert := inv; start := lo; end_ := NInt z |}.
Proof.
  intros H Hq v. unfold Range_evaluate, py_lt, py_gt. simpl.
  destruct (xnum_of_pyval v) as [x|]; simpl; [|reflexivity].
  rewrite H. now rewrite (xlt_Qeq_l x q (inject_Z z) Hq).
Qed.

(** ** Ranges *)

(** The claim of the spec, that [evaluate(15)] of the range ["10:20"] is
    true where true stands for the alert zone, does not hold: 15 is not
    in the alert zone. *)
Lemma range_10_20_evaluate_15_is_not_true :
  (parse "10:20" ≫= fun r => Range_evaluate r (PInt 15)) <> Return true.
Proof. vm_compute. discriminate. Qed.

(** C6, as amended. The range parsed from ["10:20"] alerts exactly on the
    values below 10 or above 20: [evaluate(15)] is false, [evaluate(5)]
    and [evaluate(25)] are true. *)
Theorem range_10_20_alert_zone :
  exists r,
    parse "10:20" = Return r /\
    (forall z : Z, Range_evaluate r (PInt z) = Return ((z <? 10) || (20 <? z))) /\
    Range_evaluate r (PInt 15) = Return false /\
    Range_evaluate r (PInt 5) = Return true /\
    Range_evaluate r (PInt 25) = Return true.
Proof.
  eexists. split; [vm_compute; reflexivity|].
  split; [|repeat split; vm_compute; reflexivity].
  intros z. unfold Range_evaluate, py_lt, py_gt. simpl.
  rewrite !Qltb_inject_Z. now rewrite xorb_false_r.
Qed.

(** ** Percent thresholds *)

(** C3. With a total of 1000 the specs ["50%"] and ["80%"] are rewritten to
    [str(1000.0 * (50.0 / 100))] and [str(1000.0 * (80.0 / 100))], the
    texts ["500.0"] and ["800.0"]; the ranges parsed from them alert on
    the same values as [Range("500")] and [Range("800")], and a metric of
    value 600 is WARNING, not CRITICAL. *)
Theorem percent_thresholds_of_1000 (base : RouterOSCheckResource) :
  let resource := {| memory_base := base; memory_total := PInt 1000 |} in
  let this := new_ScalarPercentContext "used" "memory_total" (Some "50%") (Some "80%") in
  let metric := bytes "used" 600 1000 in
  regex_sub (PInt 1000) (Some "50%")
    = Return (float_str (float_mul (round_Z 1000 0) (float_div (round_Z 50 0) (round_Z 100 0)))) /\
  regex_sub (PInt 1000) (Some "80%")
    = Return (float_str (float_mul (round_Z 1000 0) (float_div (round_Z 80 0) (round_Z 100 0)))) /\
  regex_sub (PInt 1000) (Some "50%") = Return "500.0" /\
  regex_sub (PInt 1000) (Some "80%") = Return "800.0" /\
  exists this' out w c r500 r800 result,
    _prepare_ranges metric resource this = (this', out, Return tt) /\
    warning this' = Some w /\ critical this' = Some c /\
    parse "500" = Return r500 /\ parse "800" = Return r800 /\
    Range_equiv w r500 /\ Range_equiv c r800 /\
    ScalarPercentContext_evaluate metric resource this = (this', out, Return result) /\
    state result = WARNING /\ state result <> CRITICAL.
Proof.
  intros resource this metric.
  do 4 (split; [vm_compute; reflexivity|]).
  do 7 eexists.
  split; [vm_compute; reflexivity|].
  split; [reflexivity|]. split; [reflexivity|].
  split; [vm_compute; reflexivity|]. split; [vm_compute; reflexivity|].
  split; [eapply Range_equiv_end; [reflexivity|vm_compute; reflexivity]|].
  split; [eapply Range_equiv_end; [reflexivity|vm_compute; reflexivity]|].
  split; [vm_compute; reflexivity|].
  split; [reflexivity|discriminate].
Qed.

(** ** The memory check, end to end *)

(** With the options [--used --warning 70 --critical 90] the thresholds
    are the plain numbers 70 and 90: 800000000 used bytes are above both,
    the status is CRITICAL and the exit code 2, not WARNING and 1. *)
Lemma system_memory_plain_thresholds_are_critical :
  let run := system_memory (router ∅ [memory_row 200000000 1000000000]) true "70" "90" in
  status_of run = Some CRITICAL /\ exit_code_of run = Some 2 /\
  ~ (status_of run = Some WARNING /\ exit_code_of run = Some 1).
Proof.
  vm_compute. split; [reflexivity|]. split; [reflexivity|]. intros [H _]. discriminate.
Qed.

(** C1, as amended. With free-memory 200000000 and total-memory
    1000000000 and the options [--used --warning 70% --critical 90%],
    the used metric is 800000000, above 70% and not above 90% of the
    total: the status is WARNING, the summary is made from the result of
    the used metric, and the exit code is 1. *)
Theorem system_memory_percent_thresholds_warn (opts : gmap string pyval) :
  let run := system_memory (router opts [memory_row 200000000 1000000000]) true "70%" "90%" in
  status_of run = Some WARNING /\
  exit_code_of run = Some 1 /\
  exists r,
    summary_of run = Some (OfResults [r]) /\
    metric r = Some (bytes "used" 800000000 1000000000) /\
    state r = WARNING /\
    mentions "used" (OfResults [r]).
Proof.
  intros run. split; [vm_compute; reflexivity|]. split; [vm_compute; reflexivity|].
  eexists. split; [vm_compute; reflexivity|].
  split; [reflexivity|]. split; [reflexivity|].
  simpl. eexists _, _. split; [left; reflexivity|]. split; reflexivity.
Qed.

(** ** The resolution of an instance whose ranges are not both set *)

Lemma unresolved_branch (this : ScalarPercentContext) :
  warning this = None \/ critical this = None ->
  forall (A : Type) (a b : A),
    match warning this, critical this with
    | Some _, Some _ => a
    | _, _ => b
    end = b.
Proof.
  intros [H|H] A a b; rewrite H; [reflexivity|]. now destruct (warning this).
Qed.

(** Opens [_prepare_ranges] on such an instance, up to the lookup of the
    total. *)
Ltac enter_resolution H :=
  unfold _prepare_ranges;
  cbv beta iota delta [mbind eff_bind self lift update print emit mret eff_ret];
  rewrite (unresolved_branch _ H); cbv beta.

(** ** Standard output *)

(** C7, at an input where it fails: the first [evaluate] of a
    ScalarPercentContext writes the two rewritten threshold specs to
    standard output. The metric comes back in the result as it was
    passed. *)
Theorem first_evaluate_prints_thresholds (base : RouterOSCheckResource) :
  let resource := {| memory_base := base; memory_total := PInt 1000000000 |} in
  let this := new_ScalarPercentContext "used" "memory_total" (Some "70%") (Some "90%") in
  let m := bytes "used" 800000000 1000000000 in
  exists this' result,
    ScalarPercentContext_evaluate m resource this
      = (this', ["700000000.0"; "900000000.0"], Return result) /\
    metric result = Some m.
Proof.
  intros resource this m. do 2 eexists. split; [vm_compute; reflexivity|reflexivity].
Qed.

(** Whenever the resolution runs and succeeds, it has written the two
    rewritten specs. *)
Lemma resolution_prints_both_specs {R : Type} `{!Resource R}
    (this this' : ScalarPercentContext) (m : Metric) (resource : R) (out : list string) :
  warning this = None \/ critical this = None ->
  _prepare_ranges m resource this = (this', out, Return tt) ->
  exists total w c,
    getattr resource (_total_name this) = Return total /\
    regex_sub total (_warning this) = Return w /\
    regex_sub total (_critical this) = Return c /\
    out = [w; c].
Proof.
  intros Hnone. enter_resolution Hnone.
  destruct (getattr resource (_total_name this)) as [total|] eqn:Ht; [|discriminate].
  cbv beta iota.
  destruct (regex_sub total (_warning this)) as [w|] eqn:Hw; [|discriminate].
  cbv beta iota.
  destruct (regex_sub total (_critical this)) as [c|] eqn:Hc; [|discriminate].
  cbv beta iota.
  destruct (parse w); [|discriminate]. cbv beta iota.
  destruct (parse c); [|discriminate]. cbv beta iota.
  intros [= _ <-]. exists total, w, c. repeat split; reflexivity || assumption.
Qed.

(** ** The probes *)

(** C10. From a reply with the fields free-memory and total-memory the
    memory probe yields two metrics, free and then used, where used is
    total-memory minus free-memory; both have the unit B, the minimum 0
    and the maximum total-memory, so free plus used is the total. The
    probe stores the total on the resource. *)
Theorem memory_probe_yields_free_and_used
    (base : RouterOSCheckResource) (row : response) (rows : list response)
    (free total : Z) :
  device base = Return (row :: rows) ->
  row !! "free-memory" = Some (PInt free) ->
  row !! "total-memory" = Some (PInt total) ->
  exists used,
    probe (new_SystemMemoryResource base)
      = (set_memory_total (PInt total) (new_SystemMemoryResource base),
         [ {| name := "free"; value := PInt free; uom := Some "B";
              min := Some (PInt 0); max := Some (PInt total) |};
           {| name := "used"; value := PInt used; uom := Some "B";
              min := Some (PInt 0); max := Some (PInt total) |} ],
         Return tt) /\
    used = total - free /\
    free + used = total.
Proof.
  intros Hdev Hfree Htotal. exists (total - free).
  split; [|split; lia].
  unfold probe, SystemMemoryResource_Resource, SystemMemoryResource_probe.
  run_eff. rewrite Hdev. simpl. unfold getitem. rewrite Hfree, Htotal. reflexivity.
Qed.

Lemma memory_probe_yields_free_and_used_witness :
  exists used,
    probe (new_SystemMemoryResource (router ∅ [memory_row 200000000 1000000000]))
      = (set_memory_total (PInt 1000000000)
           (new_SystemMemoryResource (router ∅ [memory_row 200000000 1000000000])),
         [ bytes "free" 200000000 1000000000; bytes "used" used 1000000000 ],
         Return tt) /\
    used = 1000000000 - 200000000 /\
    200000000 + used = 1000000000.
Proof.
  apply (memory_probe_yields_free_and_used
           (router ∅ [memory_row 200000000 1000000000])
           (memory_row 200000000 1000000000) [] 200000000 1000000000);
    reflexivity.
Defined.

(** C9. From a ping reply with received = 0 the probe yields the metrics
    packet_loss, sent and received, in that order, and ends: the fields of
    the round trip times, the size and the ttl are not read, whether the
    reply has them or not. *)
Theorem ping_probe_without_answer
    (base : RouterOSCheckResource) (address : string)
    (rows : list response) (row : response) (packet_loss sent : pyval) :
  device base = Return rows ->
  last rows = Some row ->
  row !! "packet-loss" = Some packet_loss ->
  row !! "sent" = Some sent ->
  row !! "received" = Some (PInt 0) ->
  probe (new_ToolPingCheck base address)
    = (new_ToolPingCheck base address,
       [ {| name := "packet_loss"; value := packet_loss; uom := Some "%";
            min := Some (PInt 0); max := Some (PInt 100) |};
         {| name := "sent"; value := sent; uom := None;
            min := Some (PInt 0); max := Some (PInt 1) |};
         {| name := "received"; value := PInt 0; uom := None;
            min := Some (PInt 0); max := Some (PInt 1) |} ],
       Return tt).
Proof.
  intros Hdev Hlast Hloss Hsent Hrecv.
  unfold probe, ToolPingCheck_Resource, ToolPingCheck_probe.
  run_eff. rewrite Hdev. simpl. unfold last_row. rewrite Hlast. simpl.
  unfold getitem. rewrite Hloss, Hsent, Hrecv. reflexivity.
Qed.

Lemma ping_probe_without_answer_witness :
  probe (new_ToolPingCheck (router ∅ [ping_row_lost]) "192.0.2.1")
    = (new_ToolPingCheck (router ∅ [ping_row_lost]) "192.0.2.1",
       [ {| name := "packet_loss"; value := PInt 100; uom := Some "%";
            min := Some (PInt 0); max := Some (PInt 100) |};
         {| name := "sent"; value := PInt 1; uom := None;
            min := Some (PInt 0); max := Some (PInt 1) |};
         {| name := "received"; value := PInt 0; uom := None;
            min := Some (PInt 0); max := Some (PInt 1) |} ],
       Return tt).
Proof.
  apply (ping_probe_without_answer (router ∅ [ping_row_lost]) "192.0.2.1"
           [ping_row_lost] ping_row_lost (PInt 100) (PInt 1)); reflexivity.
Defined.

(** When the reply lacks packet-loss or sent, that is the field the probe
    misses; the fields of an answered ping are not read either. *)
Lemma ping_probe_without_answer_missing_field
    (base : RouterOSCheckResource) (address : string)
    (rows : list response) (row : response) :
  device base = Return rows ->
  last rows = Some row ->
  row !! "received" = Some (PInt 0) ->
  row !! "packet-loss" = None \/ row !! "sent" = None ->
  exists yielded,
    probe (new_ToolPingCheck base address)
      = (new_ToolPingCheck base address, yielded,
         Raise (KeyError (match row !! "packet-loss" with
                          | Some _ => "sent"
                          | None => "packet-loss"
                          end))) /\
    (length yielded <= 1)%nat.
Proof.
  intros Hdev Hlast Hrecv Hmiss.
  unfold probe, ToolPingCheck_Resource, ToolPingCheck_probe.
  run_eff. rewrite Hdev. simpl. unfold last_row. rewrite Hlast. simpl.
  unfold getitem.
  destruct (row !! "packet-loss") as [loss|]; simpl.
  - destruct Hmiss as [Hmiss|Hmiss]; [discriminate|]. rewrite Hmiss. simpl.
    eexists. split; [reflexivity|]. simpl. lia.
  - eexists. split; [reflexivity|]. simpl. lia.
Qed.

(** ** The uptime check *)

Lemma span_digits_spec (l d r : list ascii) :
  span_digits l = (d, r) ->
  l = (d ++ r)%list /\ forallb is_digit d = true.
Proof.
  revert d r. induction l as [|c l IH]; intros d r; simpl.
  - intros [= <- <-]. now split.
  - destruct (is_digit c) eqn:Hc.
    + destruct (span_digits l) as [d' r'] eqn:Hs. intros [= <- <-].
      destruct (IH d' r' eq_refl) as [-> Hd]. split; [reflexivity|].
      simpl. now rewrite Hc, Hd.
    + intros [= <- <-]. now split.
Qed.

Lemma span_digits_app (d r : list ascii) (c : ascii) :
  forallb is_digit d = true -> is_digit c = false ->
  span_digits (d ++ c :: r) = (d, c :: r).
Proof.
  intros Hd Hc. induction d as [|a d IH]; simpl.
  - now rewrite Hc.
  - simpl in Hd. apply andb_prop in Hd as [Ha Hd]. rewrite Ha. now rewrite (IH Hd).
Qed.

Lemma digits_then_spec (sep : ascii) (l d r : list ascii) :
  digits_then sep l = Some (d, r) -> digits d /\ l = (d ++ sep :: r)%list.
Proof.
  unfold digits_then. destruct (span_digits l) as [ds rest] eqn:Hs.
  apply span_digits_spec in Hs as [-> Hd].
  destruct ds as [|a ds]; [discriminate|]. destruct rest as [|c rest]; [discriminate|].
  destruct (Ascii.eqb_spec c sep) as [->|]; [|discriminate].
  intros [= <- <-]. split; [split; [discriminate|assumption]|reflexivity].
Qed.

Lemma digits_then_app (sep : ascii) (d r : list ascii) :
  digits d -> is_digit sep = false -> digits_then sep (d ++ sep :: r) = Some (d, r).
Proof.
  intros [Hne Hd] Hsep. unfold digits_then. rewrite (span_digits_app d r sep Hd Hsep).
  destruct d; [contradiction|]. now rewrite Ascii.eqb_refl.
Qed.

(** The match of the probe succeeds exactly on the texts of that shape. *)
Lemma match_uptime_shape (s : string) : match_uptime s <> None <-> has_uptime_shape s.
Proof.
  unfold match_uptime, has_uptime_shape. split.
  - destruct (digits_then "h" (chars s)) as [[h l1]|] eqn:Hh; simpl; [|congruence].
    destruct (digits_then "m" l1) as [[m l2]|] eqn:Hm; simpl; [|congruence].
    destruct (digits_then "s" l2) as [[sec l3]|] eqn:Hs; simpl; [|congruence].
    intros _. apply digits_then_spec in Hh as [Dh ->], Hm as [Dm ->], Hs as [Ds ->].
    now exists h, m, sec, l3.
  - intros (h & m & sec & rest & Dh & Dm & Ds & ->).
    rewrite digits_then_app by (assumption || reflexivity). simpl.
    rewrite digits_then_app by (assumption || reflexivity). simpl.
    rewrite digits_then_app by (assumption || reflexivity). simpl.
    discriminate.
Qed.

Lemma uptime_probe_malformed (base : RouterOSCheckResource)
    (row : response) (rows : list response) (s : string) :
  device base = Return (row :: rows) ->
  row !! "uptime" = Some (PStr s) ->
  match_uptime s = None ->
  probe {| uptime_base := base |}
    = ({| uptime_base := base |}, [], Raise (ValueError "Unable to parse uptime")).
Proof.
  intros Hdev Hup Hno.
  unfold probe, SystemUptimeResource_Resource, SystemUptimeResource_probe.
  run_eff. rewrite Hdev. simpl. unfold getitem. rewrite Hup. simpl. rewrite Hno.
  reflexivity.
Qed.

(** C8. When the uptime text of the reply does not start with
    [<hours>h<minutes>m<seconds>s], the probe raises
    ValueError("Unable to parse uptime"), and the command ends with the
    status UNKNOWN, that exception as its message and the exit code 3; it
    does not end in an uncaught exception. *)
Theorem malformed_uptime_is_unknown (base : RouterOSCheckResource)
    (row : response) (rows : list response) (s : string) :
  device base = Return (row :: rows) ->
  row !! "uptime" = Some (PStr s) ->
  ~ has_uptime_shape s ->
  probe {| uptime_base := base |}
    = ({| uptime_base := base |}, [], Raise (ValueError "Unable to parse uptime")) /\
  system_uptime base
    = ([], Exit UNKNOWN (OfException (ValueError "Unable to parse uptime")) [] 3).
Proof.
  intros Hdev Hup Hshape.
  assert (Hno : match_uptime s = None).
  { destruct (match_uptime s) eqn:Hm; [|reflexivity].
    exfalso. apply Hshape, match_uptime_shape. congruence. }
  pose proof (uptime_probe_malformed base row rows s Hdev Hup Hno) as Hprobe.
  split; [exact Hprobe|].
  unfold system_uptime. simpl. unfold main. simpl resource.
  rewrite Hprobe. reflexivity.
Qed.

Lemma malformed_uptime_is_unknown_witness :
  probe {| uptime_base := router ∅ [ {[ "uptime" := PStr "1w2d3h4m5s" ]} ] |}
    = ({| uptime_base := router ∅ [ {[ "uptime" := PStr "1w2d3h4m5s" ]} ] |}, [],
       Raise (ValueError "Unable to parse uptime")) /\
  system_uptime (router ∅ [ {[ "uptime" := PStr "1w2d3h4m5s" ]} ])
    = ([], Exit UNKNOWN (OfException (ValueError "Unable to parse uptime")) [] 3).
Proof.
  apply (malformed_uptime_is_unknown
           (router ∅ [ {[ "uptime" := PStr "1w2d3h4m5s" ]} ])
           {[ "uptime" := PStr "1w2d3h4m5s" ]} [] "1w2d3h4m5s").
  - reflexivity.
  - reflexivity.
  - intros H. apply match_uptime_shape in H. apply H. reflexivity.
Defined.

(** A well-formed uptime is read as seconds. *)
Example uptime_3h4m5s :
  status_of (system_uptime (router ∅ [ {[ "uptime" := PStr "3h4m5s" ]} ])) = Some OK /\
  fst (fst (probe {| uptime_base := router ∅ [ {[ "uptime" := PStr "3h4m5s" ]} ] |}))
    = {| uptime_base := router ∅ [ {[ "uptime" := PStr "3h4m5s" ]} ] |} /\
  snd (fst (probe {| uptime_base := router ∅ [ {[ "uptime" := PStr "3h4m5s" ]} ] |}))
    = [ {| name := "uptime"; value := PInt 11045; uom := Some "s";
           min := Some (PInt 0); max := None |} ].
Proof. repeat split; vm_compute; reflexivity. Qed.

(** ** Memoized ranges *)

Section Memoized.
Context {R : Type} `{!Resource R}.

(** With both ranges set [_prepare_ranges] returns at once. *)
Lemma prepare_ranges_resolved (this : ScalarPercentContext) (w c : Range)
    (m : Metric) (resource : R) :
  warning this = Some w -> critical this = Some c ->
  _prepare_ranges m resource this = (this, [], Return tt).
Proof.
  intros Hw Hc. unfold _prepare_ranges. run_eff. now rewrite Hw, Hc.
Qed.

Lemma evaluate_resolved (this : ScalarPercentContext) (w c : Range)
    (m : Metric) (resource : R) :
  warning this = Some w -> critical this = Some c ->
  ScalarPercentContext_evaluate m resource this = (this, [], scalar_evaluate w c m).
Proof.
  intros Hw Hc. unfold ScalarPercentContext_evaluate, mbind, eff_bind.
  rewrite (prepare_ranges_resolved this w c m resource Hw Hc).
  unfold super_evaluate. run_eff. now rewrite Hc, Hw.
Qed.

Lemma performance_resolved (this : ScalarPercentContext) (w c : Range)
    (m : Metric) (resource : R) :
  warning this = Some w -> critical this = Some c ->
  ScalarPercentContext_performance m resource this
    = (this, [], Return (scalar_performance w c m)).
Proof.
  intros Hw Hc. unfold ScalarPercentContext_performance, mbind, eff_bind.
  rewrite (prepare_ranges_resolved this w c m resource Hw Hc).
  unfold super_performance, scalar_performance. run_eff. now rewrite Hc, Hw.
Qed.

(** An [evaluate] that returns a result leaves both ranges set. *)
Lemma evaluate_resolves (this this1 : ScalarPercentContext) (m : Metric)
    (resource : R) (out : list string) (result : Result) :
  ScalarPercentContext_evaluate m resource this = (this1, out, Return result) ->
  exists w c, warning this1 = Some w /\ critical this1 = Some c.
Proof.
  unfold ScalarPercentContext_evaluate, mbind, eff_bind.
  destruct (_prepare_ranges m resource this) as [[s1 out1] [[]|e]]; [|discriminate].
  unfold super_evaluate. run_eff.
  destruct (critical s1) as [c|] eqn:Hc, (warning s1) as [w|] eqn:Hw; simpl;
    try discriminate.
  intros [= <- _ _]. eauto.
Qed.

(** C5. Once both ranges of an instance are set, every later [evaluate]
    and [performance] call skips the resolution: it leaves the instance
    as it is, writes nothing, and answers from the ranges it holds,
    whatever total the resource shows then. After an [evaluate] that
    returned a result the ranges are set, so [performance] called twice
    on the same metric gives the same datum, also when the total has
    changed in between. *)
Theorem resolved_ranges_are_kept (this : ScalarPercentContext) (m : Metric) :
  (forall w c, warning this = Some w -> critical this = Some c ->
     forall (later : Metric) (resource : R),
       _prepare_ranges later resource this = (this, [], Return tt) /\
       ScalarPercentContext_evaluate later resource this
         = (this, [], scalar_evaluate w c later) /\
       ScalarPercentContext_performance later resource this
         = (this, [], Return (scalar_performance w c later))) /\
  (forall (resource : R) this1 out result,
     ScalarPercentContext_evaluate m resource this = (this1, out, Return result) ->
     exists w c,
       warning this1 = Some w /\ critical this1 = Some c /\
       forall resource1 resource2 : R,
         ScalarPercentContext_performance m resource1 this1
           = (this1, [], Return (scalar_performance w c m)) /\
         ScalarPercentContext_performance m resource2 this1
           = (this1, [], Return (scalar_performance w c m))).
Proof.
  split.
  - intros w c Hw Hc later resource.
    split; [now apply (prepare_ranges_resolved this w c)|].
    split; [now apply evaluate_resolved | now apply performance_resolved].
  - intros resource this1 out result Hev.
    destruct (evaluate_resolves _ _ _ _ _ _ Hev) as (w & c & Hw & Hc).
    exists w, c. split; [exact Hw|]. split; [exact Hc|].
    intros r1 r2. split; now apply performance_resolved.
Qed.
End Memoized.

(** The thresholds resolved against a total of 1000000000 stay as they
    are when the total of the resource has become 5. *)
Lemma resolved_ranges_are_kept_witness :
  let this := new_ScalarPercentContext "used" "memory_total" (Some "70%") (Some "90%") in
  let m := bytes "used" 800000000 1000000000 in
  let resource := {| memory_base := router ∅ []; memory_total := PInt 1000000000 |} in
  let changed := {| memory_base := router ∅ []; memory_total := PInt 5 |} in
  exists this1 w c,
    fst (fst (ScalarPercentContext_evaluate m resource this)) = this1 /\
    parse "700000000.0" = Return w /\ parse "900000000.0" = Return c /\
    warning this1 = Some w /\ critical this1 = Some c /\
    ScalarPercentContext_performance m resource this1
      = (this1, [], Return (scalar_performance w c m)) /\
    ScalarPercentContext_performance m changed this1
      = (this1, [], Return (scalar_performance w c m)) /\
    ScalarPercentContext_evaluate m changed this1 = (this1, [], scalar_evaluate w c m).
Proof.
  intros this m resource changed.
  destruct (ScalarPercentContext_evaluate m resource this) as [[this1 out] r] eqn:Hev.
  assert (Hev' := Hev). vm_compute in Hev'.
  injection Hev' as <- <- <-.
  destruct (resolved_ranges_are_kept (R := SystemMemoryResource) this m) as [_ Hafter].
  destruct (Hafter resource _ _ _ Hev) as (w & c & Hw & Hc & Hperf).
  destruct (resolved_ranges_are_kept (R := SystemMemoryResource)
              (set_critical c (set_warning w this)) m) as [Hkept _].
  simpl in Hw, Hc. injection Hw as <-. injection Hc as <-.
  eexists _, _, _. split; [reflexivity|].
  split; [vm_compute; reflexivity|]. split; [vm_compute; reflexivity|].
  split; [reflexivity|]. split; [reflexivity|].
  split; [apply (Hperf resource changed)|].
  split; [apply (Hperf resource changed)|].
  apply (Hkept _ _ eq_refl eq_refl m changed).
Defined.

(** ** Tokens with another unit *)

Lemma plainc_not_special (c : ascii) :
  plainc c = true ->
  is_space c = false /\
  Ascii.eqb c "_" = false /\ Ascii.eqb c "%" = false /\
  Ascii.eqb c "-" = false /\ Ascii.eqb c "+" = false /\
  Ascii.eqb c "@" = false /\ Ascii.eqb c "~" = false /\
  Ascii.eqb ":" c = false /\ Ascii.eqb "." c = false.
Proof.
  destruct c as [[] [] [] [] [] [] [] []]; vm_compute; intros H;
    first [discriminate H | repeat split].
Qed.


Lemma chars_append (a b : string) : chars (a +:+ b) = (chars a ++ chars b)%list.
Proof. unfold chars. induction a as [|c a IH]; simpl; [reflexivity|]. now rewrite <- IH. Qed.

Lemma text_app (a b : list ascii) : text (a ++ b) = text a +:+ text b.
Proof. unfold text. induction a as [|c a IH]; simpl; [reflexivity|]. now rewrite IH. Qed.

Lemma text_chars (s : string) : text (chars s) = s.
Proof. apply string_of_list_ascii_of_string. Qed.

Lemma chars_text (l : list ascii) : chars (text l) = l.
Proof. apply list_ascii_of_string_of_list_ascii. Qed.

Lemma contains_existsb (x : ascii) (s : string) :
  contains x s = existsb (Ascii.eqb x) (chars s).
Proof.
  induction s as [|c s IH]; simpl; [reflexivity|].
  destruct (Ascii.eqb x c); [reflexivity|exact IH].
Qed.

Lemma existsb_plain (x : ascii) (l : list ascii) :
  (forall c, plainc c = true -> Ascii.eqb x c = false) ->
  forallb plainc l = true -> existsb (Ascii.eqb x) l = false.
Proof.
  intros Hx. induction l as [|c l IH]; simpl; [reflexivity|].
  intros H. apply andb_prop in H as [Hc Hl]. now rewrite (Hx c Hc), (IH Hl).
Qed.

Lemma drop_spaces_plain (l : list ascii) : forallb plainc l = true -> drop_spaces l = l.
Proof.
  destruct l as [|c l]; simpl; [reflexivity|]. intros H. apply andb_prop in H as [Hc _].
  now destruct (plainc_not_special c Hc) as [-> _].
Qed.

Lemma forallb_rev (f : ascii -> bool) (l : list ascii) :
  forallb f l = true -> forallb f (rev l) = true.
Proof.
  rewrite !forallb_forall. intros H c Hc. apply H. now apply in_rev.
Qed.

Lemma strip_plain (l : list ascii) : forallb plainc l = true -> strip l = l.
Proof.
  intros H. unfold strip. rewrite (drop_spaces_plain l H).
  rewrite (drop_spaces_plain (rev l) (forallb_rev _ _ H)). apply rev_involutive.
Qed.

Lemma drop_underscores_plain (l : list ascii) (prev : option ascii) :
  match prev with Some p => Ascii.eqb p "_" = false | None => True end ->
  forallb plainc l = true -> drop_underscores prev l = Some l.
Proof.
  revert prev. induction l as [|c l IH]; intros prev Hprev H; simpl.
  - destruct prev as [p|]; [now rewrite Hprev|reflexivity].
  - apply andb_prop in H as [Hc Hl].
    destruct (plainc_not_special c Hc) as (_ & Hu & _). rewrite Hu.
    assert (Hafter : match prev with Some p => Ascii.eqb p "_" | None => false end = false)
      by (destruct prev; [exact Hprev|reflexivity]).
    rewrite Hafter. simpl. now rewrite (IH (Some c) Hu Hl).
Qed.


(** A spec without a percent sign is not changed by the rewriting. *)
Lemma sub_percent_without_percent (repl : string -> string -> res string)
    (l run : list ascii) :
  existsb (Ascii.eqb "%") l = false ->
  sub_percent repl run l = Return (text (run ++ l)).
Proof.
  revert run. induction l as [|c l IH]; intros run H.
  - simpl. now rewrite app_nil_r.
  - cbn [existsb] in H. apply orb_false_elim in H as [Hc Hl].
    cbn [sub_percent]. destruct (is_digit c).
    + rewrite (IH _ Hl). now rewrite <- app_assoc.
    + rewrite Ascii.eqb_sym in Hc. rewrite Hc. cbn [andb].
      rewrite (IH [] Hl). cbn [mbind res_bind app].
      now rewrite text_app.
Qed.

Lemma regex_sub_without_percent (total : pyval) (s : string) :
  contains "%" s = false -> regex_sub total (Some s) = Return s.
Proof.
  intros H. unfold regex_sub, re_sub_percent. rewrite contains_existsb in H.
  rewrite (sub_percent_without_percent _ _ [] H). simpl. now rewrite text_chars.
Qed.

(** A run of digits with a percent sign after it is what [replace] makes
    of it. *)
Lemma sub_percent_digits (repl : string -> string -> res string)
    (d l run : list ascii) :
  forallb is_digit d = true ->
  sub_percent repl run (d ++ l) = sub_percent repl (run ++ d) l.
Proof.
  revert run. induction d as [|c d IH]; intros run H; simpl.
  - now rewrite app_nil_r.
  - simpl in H. apply andb_prop in H as [Hc Hd]. rewrite Hc.
    rewrite (IH _ Hd). now rewrite <- app_assoc.
Qed.

Lemma append_empty_r (s : string) : s +:+ "" = s.
Proof.
  induction s as [|c s IH]; [reflexivity|].
  change (String c (s +:+ "") = String c s). now rewrite IH.
Qed.

Lemma regex_sub_percent_token (total : pyval) (d : string) :
  all_digits d = true -> d <> "" ->
  regex_sub total (Some (d +:+ "%")) = replace total d "%".
Proof.
  intros Hd Hne. unfold regex_sub, re_sub_percent.
  rewrite chars_append. rewrite (sub_percent_digits _ _ _ [] Hd). simpl.
  destruct (chars d) as [|c l] eqn:Hl.
  - destruct d; [contradiction|discriminate].
  - rewrite <- Hl, text_chars. unfold mbind, res_bind.
    destruct (replace total d "%"); [|reflexivity]. now rewrite append_empty_r.
Qed.



Lemma plainc_not_percent (c : ascii) : plainc c = true -> Ascii.eqb "%" c = false.
Proof.
  intros H. rewrite Ascii.eqb_sym. now destruct (plainc_not_special c H) as (_&_&?&_).
Qed.


(** ** What the rewriting replaces *)






Section OtherUnit.
Context {R : Type} `{!Resource R}.




End OtherUnit.



(* ===================================================================== *)
(** * Further properties of the plugin                                    *)
(* ===================================================================== *)

Import Truth Connection Vrrp Ping.

(** ** The connection set-up *)

Section CommandLine.
Variables (obj : gmap string pyval) (reply : res (list response)).
Variables (h hn p u pw use_ssl ca_file ca_path force verify_cert verify_host verbose : pyval).

Local Abbreviation opts :=
  (cli obj h hn p u pw use_ssl ca_file ca_path force verify_cert verify_host verbose).
Local Abbreviation this := {| _cmd_options := opts; device := reply |}.

(** What [cli] stored is what the keys give back. *)
Lemma cli_lookup :
  getitem opts "host" = Return h /\
  getitem opts "hostname" = Return hn /\
  getitem opts "port" = Return p /\
  getitem opts "username" = Return u /\
  getitem opts "password" = Return pw /\
  getitem opts "ssl" = Return use_ssl /\
  getitem opts "ssl_cafile" = Return ca_file /\
  getitem opts "ssl_capath" = Return ca_path /\
  getitem opts "ssl_force_no_certificate" = Return force /\
  getitem opts "ssl_verify" = Return verify_cert /\
  getitem opts "ssl_verify_hostname" = Return verify_host /\
  getitem opts "verbose" = Return verbose.
Proof.
  unfold getitem, cli. repeat split; by simplify_map_eq.
Qed.




(** X3. The server name the TLS wrapper asks for is [--hostname], and
    [--host] only when no [--hostname] was given; an empty [--hostname]
    is passed on as it is. *)
Theorem wrap_socket_server_name :
  wrap_socket this = Return (if is_None hn then h else hn) /\
  (hn = PStr "" -> wrap_socket this = Return (PStr "")).
Proof.
  destruct cli_lookup as (Hh & Hhn & _).
  assert (H : wrap_socket this = Return (if is_None hn then h else hn)).
  { unfold wrap_socket. cbn [_cmd_options]. rewrite Hhn. cbn [mbind res_bind].
    destruct (is_None hn); [exact Hh|reflexivity]. }
  split; [exact H|]. intros ->. exact H.
Qed.
End CommandLine.

(** X4. Whatever the options hold: a TLS context that does not verify
    the certificate does not check the host name either, and the
    anonymous ciphers are never combined with a host name check. *)
Theorem unverified_context_checks_no_hostname (opts : gmap string pyval)
    (ctx : ssl_context) :
  prepare_ssl_context opts = Return ctx ->
  (verify ctx = CERT_NONE -> check_hostname ctx = false) /\
  (ciphers ctx <> None -> check_hostname ctx = false).
Proof.
  unfold prepare_ssl_context.
  destruct (getitem opts "ssl_cafile") as [f|]; [|discriminate].
  destruct (getitem opts "ssl_capath") as [pa|]; [|discriminate].
  cbn [mbind res_bind].
  destruct (getitem opts "ssl_force_no_certificate") as [force|]; [|discriminate].
  cbn [mbind res_bind].
  destruct (py_truth force).
  { intros [= <-]. split; reflexivity. }
  destruct (getitem opts "ssl_verify") as [v|]; [|discriminate].
  cbn [mbind res_bind].
  destruct (py_truth v); cbn [negb].
  2: { intros [= <-]. split; reflexivity. }
  destruct (getitem opts "ssl_verify_hostname") as [vh|]; [|discriminate].
  cbn [mbind res_bind].
  destruct (py_truth vh); cbn [negb]; intros [= <-]; split; cbn; congruence.
Qed.

Lemma unverified_context_checks_no_hostname_witness :
  let ctx := set_verify_mode CERT_NONE
               (set_check_hostname false (create_default_context None None)) in
  (verify ctx = CERT_NONE -> check_hostname ctx = false) /\
  (ciphers ctx <> None -> check_hostname ctx = false).
Proof.
  apply (unverified_context_checks_no_hostname
           (cli ∅ (PStr "192.0.2.1") PNone PNone (PStr "admin") (PStr "secret")
                (PBool true) PNone PNone (PBool false) (PBool false) (PBool true)
                (PInt 0))).
  reflexivity.
Defined.


(** ** The VRRP check *)

(** The probe up to its loop over the states. *)
Lemma vrrp_probe_run (base : RouterOSCheckResource) (n : string) (must : pyval)
    (row : response) (rows : list response) (d : pyval) :
  device base = Return (row :: rows) ->
  row !! "disabled" = Some d ->
  probe (new_InterfaceVrrpCheck base n must)
  = let this := set_enabled (PBool (negb (py_truth d)))
                  (set_disabled d (new_InterfaceVrrpCheck base n must)) in
    let '(this', states, r) :=
      (if negb (py_truth d)
       then yield_states row ["backup"; "invalid"; "master"; "running"]
       else mret tt) this in
    (this', plain_metric "disabled" d :: states, r).
Proof.
  intros Hdev Hd.
  unfold probe, InterfaceVrrpCheck_Resource, InterfaceVrrpCheck_probe.
  unfold mbind, mret, eff_bind, eff_ret, self, lift, update, yield, emit.
  cbn -[yield_states]. rewrite Hdev. cbn -[yield_states].
  unfold getitem. rewrite Hd. cbn -[yield_states].
  destruct (py_truth d); cbn -[yield_states]; [reflexivity|].
  destruct (yield_states row _ _) as [[s ms] r]. reflexivity.
Qed.

(** X5. When the row says the interface is disabled, the probe yields
    the metric disabled and nothing else: the other states are not read,
    whether the row has them or not, and stay None on the resource. *)
Theorem vrrp_probe_disabled (base : RouterOSCheckResource) (n : string) (must : pyval)
    (row : response) (rows : list response) (d : pyval) :
  device base = Return (row :: rows) ->
  row !! "disabled" = Some d ->
  py_truth d = true ->
  exists this',
    probe (new_InterfaceVrrpCheck base n must)
      = (this', [plain_metric "disabled" d], Return tt) /\
    disabled this' = d /\ enabled this' = PBool false /\
    backup this' = PNone /\ invalid this' = PNone /\ master this' = PNone /\
    running this' = PNone /\ master_must this' = must.
Proof.
  intros Hdev Hd Ht. rewrite (vrrp_probe_run base n must row rows d Hdev Hd).
  rewrite Ht. cbn. eexists. split; [reflexivity|]. repeat split.
Qed.

Lemma vrrp_probe_disabled_witness :
  exists this',
    probe (new_InterfaceVrrpCheck
             (router ∅ [vrrp_row (PBool true) (PBool false) (PBool false) (PBool false)
                          (PBool false)]) "vrrp1" (PBool false))
      = (this', [plain_metric "disabled" (PBool true)], Return tt) /\
    disabled this' = PBool true /\ enabled this' = PBool false /\
    backup this' = PNone /\ invalid this' = PNone /\ master this' = PNone /\
    running this' = PNone /\ master_must this' = PBool false.
Proof.
  apply (vrrp_probe_disabled _ "vrrp1" (PBool false)
           (vrrp_row (PBool true) (PBool false) (PBool false) (PBool false) (PBool false))
           [] (PBool true)); reflexivity.
Defined.

(** X6. When the interface is not disabled, the probe yields disabled
    and then, of backup, invalid, master and running, in this order, the
    states the row has; a state the row lacks is passed over without an
    error and stays None on the resource, and each state yielded is
    stored on the resource under its name. *)
Theorem vrrp_probe_enabled (base : RouterOSCheckResource) (n : string) (must : pyval)
    (row : response) (rows : list response) (d : pyval) :
  device base = Return (row :: rows) ->
  row !! "disabled" = Some d ->
  py_truth d = false ->
  exists this',
    probe (new_InterfaceVrrpCheck base n must)
      = (this',
         plain_metric "disabled" d
           :: map (fun '(k, v) => plain_metric k v)
                  (present row ["backup"; "invalid"; "master"; "running"]),
         Return tt) /\
    disabled this' = d /\ enabled this' = PBool true /\ master_must this' = must /\
    backup this' = default PNone (row !! "backup") /\
    invalid this' = default PNone (row !! "invalid") /\
    master this' = default PNone (row !! "master") /\
    running this' = default PNone (row !! "running").
Proof.
  intros Hdev Hd Hf. rewrite (vrrp_probe_run base n must row rows d Hdev Hd).
  rewrite Hf. unfold present. cbn [negb yield_states omap list_omap map].
  destruct (row !! "backup") as [b|], (row !! "invalid") as [i|],
    (row !! "master") as [m|], (row !! "running") as [r|];
    (eexists; split; [reflexivity|]; repeat split).
Qed.

Lemma vrrp_probe_enabled_witness :
  let row : response := {[ "disabled" := PBool false; "master" := PBool true ]} in
  exists this',
    probe (new_InterfaceVrrpCheck (router ∅ [row]) "vrrp1" (PBool true))
      = (this',
         plain_metric "disabled" (PBool false)
           :: map (fun '(k, v) => plain_metric k v)
                  (present row ["backup"; "invalid"; "master"; "running"]),
         Return tt) /\
    disabled this' = PBool false /\ enabled this' = PBool true /\
    master_must this' = PBool true /\
    backup this' = default PNone (row !! "backup") /\
    invalid this' = default PNone (row !! "invalid") /\
    master this' = default PNone (row !! "master") /\
    running this' = default PNone (row !! "running").
Proof.
  intros row.
  apply (vrrp_probe_enabled (router ∅ [row]) "vrrp1" (PBool true) row [] (PBool false));
    reflexivity.
Defined.

(** X7. A row whose disabled field is True ends the command with the
    status WARNING and the exit code 1, whatever else the row holds and
    whatever [--master] says: the one result is the warning "VRRP is
    disabled" and the one performance datum is disabled=1. *)
Theorem interface_vrrp_disabled_warns (base : RouterOSCheckResource) (n : string)
    (must : pyval) (row : response) (rows : list response) :
  device base = Return (row :: rows) ->
  row !! "disabled" = Some (PBool true) ->
  interface_vrrp base n must
    = ([], Exit WARNING
             (OfResults [ {| state := WARNING; result_hint := Text "VRRP is disabled";
                             metric := Some (plain_metric "disabled" (PBool true)) |} ])
             [flag "disabled" true] 1).
Proof.
  intros Hdev Hd. unfold interface_vrrp, main. cbn [fold_left resource new_Check add_context].
  rewrite (vrrp_probe_run base n must row rows (PBool true) Hdev Hd).
  vm_compute. reflexivity.
Qed.

Lemma interface_vrrp_disabled_warns_witness :
  interface_vrrp
    (router ∅ [vrrp_row (PBool true) (PBool false) (PBool true) (PBool false) (PBool false)])
    "vrrp1" (PBool true)
    = ([], Exit WARNING
             (OfResults [ {| state := WARNING; result_hint := Text "VRRP is disabled";
                             metric := Some (plain_metric "disabled" (PBool true)) |} ])
             [flag "disabled" true] 1).
Proof.
  apply (interface_vrrp_disabled_warns _ "vrrp1" (PBool true)
           (vrrp_row (PBool true) (PBool false) (PBool true) (PBool false) (PBool false)) []);
    reflexivity.
Defined.

(** X8. The probe and the context of disabled do not read the field the
    same way: the probe takes any true value as disabled ([not
    self.disabled]), the context warns for the boolean True only
    ([metric.value is True]). For a disabled field that is true without
    being True, as the number 1 or a text, the probe stops after the
    metric disabled, the context finds nothing to warn about, and the
    command ends OK with the exit code 0 and the datum disabled=1. *)
Theorem interface_vrrp_truthy_disabled_is_ok (base : RouterOSCheckResource) (n : string)
    (must : pyval) (row : response) (rows : list response) (d : pyval) :
  device base = Return (row :: rows) ->
  row !! "disabled" = Some d ->
  py_truth d = true -> is_True d = false ->
  let run := interface_vrrp base n must in
  status_of run = Some OK /\ exit_code_of run = Some 0 /\
  perfdata_of run = Some [flag "disabled" true].
Proof.
  intros Hdev Hd Ht Hnot run. subst run.
  unfold interface_vrrp, main. cbn [fold_left resource new_Check add_context].
  rewrite (vrrp_probe_run base n must row rows d Hdev Hd). rewrite Ht.
  clear Hd.
  destruct d as [| [] | [|?|?] | [| | |] | [|? ?]];
    first [discriminate Ht | discriminate Hnot | vm_compute; repeat split].
Qed.

Lemma interface_vrrp_truthy_disabled_is_ok_witness :
  let run := interface_vrrp (router ∅ [ {[ "disabled" := PStr "true" ]} ]) "vrrp1"
               (PBool false) in
  status_of run = Some OK /\ exit_code_of run = Some 0 /\
  perfdata_of run = Some [flag "disabled" true].
Proof.
  apply (interface_vrrp_truthy_disabled_is_ok _ "vrrp1" (PBool false)
           {[ "disabled" := PStr "true" ]} [] (PStr "true")); reflexivity.
Defined.

(** X9. For an interface that is not disabled and whose row has the four
    states as booleans, the command warns exactly when the configuration
    is invalid, or when the interface is not master although [--master]
    asked for it; backup and running never change the status. It ends OK
    or WARNING, never CRITICAL or UNKNOWN, with the exit code 0 or 1 and
    one performance datum of 1 or 0 per state, in the order of the
    probe. *)
Theorem interface_vrrp_enabled_verdict (base : RouterOSCheckResource) (n : string)
    (must : pyval) (row : response) (rows : list response) (b i m r : bool) :
  device base = Return (row :: rows) ->
  row !! "disabled" = Some (PBool false) ->
  row !! "backup" = Some (PBool b) ->
  row !! "invalid" = Some (PBool i) ->
  row !! "master" = Some (PBool m) ->
  row !! "running" = Some (PBool r) ->
  let run := interface_vrrp base n must in
  let alarm := i || (negb m && py_truth must) in
  status_of run = Some (if alarm then WARNING else OK) /\
  exit_code_of run = Some (if alarm then 1 else 0) /\
  perfdata_of run
    = Some [flag "disabled" false; flag "backup" b; flag "invalid" i; flag "master" m;
            flag "running" r].
Proof.
  intros Hdev Hd Hb Hi Hm Hr run alarm. subst run alarm.
  unfold interface_vrrp, main. cbn [fold_left resource new_Check add_context].
  rewrite (vrrp_probe_run base n must row rows (PBool false) Hdev Hd).
  cbn [py_truth negb yield_states]. rewrite Hb, Hi, Hm, Hr.
  clear Hd Hb Hi Hm Hr.
  destruct must as [| [] | [|?|?] | [| | |] | [|? ?]]; destruct b, i, m, r;
    vm_compute; repeat split.
Qed.

Lemma interface_vrrp_enabled_verdict_witness :
  let run := interface_vrrp
               (router ∅ [vrrp_row (PBool false) (PBool true) (PBool false) (PBool false)
                            (PBool true)]) "vrrp1" (PBool true) in
  status_of run = Some WARNING /\ exit_code_of run = Some 1 /\
  perfdata_of run
    = Some [flag "disabled" false; flag "backup" true; flag "invalid" false;
            flag "master" false; flag "running" true].
Proof.
  apply (interface_vrrp_enabled_verdict _ "vrrp1" (PBool true)
           (vrrp_row (PBool false) (PBool true) (PBool false) (PBool false) (PBool true)) []
           true false false true); reflexivity.
Defined.

(** ** Numbers written in digits *)

Lemma digits_plain (d : list ascii) : forallb is_digit d = true -> forallb plainc d = true.
Proof.
  rewrite !forallb_forall. intros H c Hc. unfold plainc. now rewrite (H c Hc).
Qed.

(** [int()] of a run of digits is the number they stand for. *)
Lemma py_int_digits (d : list ascii) : digits d -> py_int (text d) = Return (digits_value d).
Proof.
  intros [Hne Hd]. unfold py_int, read_int. rewrite chars_text.
  pose proof (digits_plain d Hd) as Hplain.
  rewrite (strip_plain d Hplain).
  destruct d as [|c d]; [contradiction|].
  assert (Hc : plainc c = true) by (simpl in Hplain; now apply andb_prop in Hplain as [? _]).
  destruct (plainc_not_special c Hc) as (_ & _ & _ & Hminus & Hplus & _).
  unfold take_sign. rewrite Hminus, Hplus.
  rewrite (drop_underscores_plain _ None I Hplain). now rewrite Hd.
Qed.

Lemma span_digits_run (d u : list ascii) :
  forallb is_digit d = true ->
  match u with c :: _ => is_digit c | [] => false end = false ->
  span_digits (d ++ u) = (d, u).
Proof.
  intros Hd Hu. destruct u as [|c u].
  - rewrite app_nil_r. induction d as [|a d IH]; simpl; [reflexivity|].
    simpl in Hd. apply andb_prop in Hd as [Ha Hd]. now rewrite Ha, (IH Hd).
  - now apply span_digits_app.
Qed.

(** [strip_time] on a time the device wrote. *)
Lemma strip_time_time_text (s : string) (t : Z) :
  time_text s t -> exists u, strip_time (PStr s) = Return (PInt t, PStr u).
Proof.
  intros (d & u & Hd & [Hu Hline] & -> & ->). exists (text u).
  unfold strip_time. rewrite chars_text.
  rewrite (span_digits_run d u (proj2 Hd) Hu).
  pose proof (py_int_digits d Hd) as Hint.
  destruct d as [|c d']; [now destruct Hd|].
  rewrite Hline. cbn [negb]. rewrite Hint. reflexivity.
Qed.

(** ** The uptime check, on a well-formed uptime *)

(** X10. When the uptime text starts with [<h>h<m>m<s>s], whatever
    follows, the probe yields the one metric uptime, in seconds:
    3600 h + 60 m + s, with the unit s and the minimum 0; the minutes and
    seconds are not held below 60. The command, whose context has no
    thresholds, ends OK with the exit code 0. *)
Theorem uptime_probe_reads_seconds (base : RouterOSCheckResource)
    (row : response) (rows : list response) (s : string) (h m sec rest : list ascii) :
  device base = Return (row :: rows) ->
  row !! "uptime" = Some (PStr s) ->
  digits h -> digits m -> digits sec ->
  chars s = (h ++ "h"%char :: m ++ "m"%char :: sec ++ "s"%char :: rest)%list ->
  let seconds := digits_value h * 60 * 60 + digits_value m * 60 + digits_value sec in
  probe {| uptime_base := base |}
    = ({| uptime_base := base |},
       [ {| name := "uptime"; value := PInt seconds; uom := Some "s";
            min := Some (PInt 0); max := None |} ],
       Return tt) /\
  seconds = 3600 * digits_value h + 60 * digits_value m + digits_value sec /\
  status_of (system_uptime base) = Some OK /\
  exit_code_of (system_uptime base) = Some 0.
Proof.
  intros Hdev Hup Dh Dm Ds Hs seconds.
  assert (Hmatch : match_uptime s = Some (text h, text m, text sec)).
  { unfold match_uptime. rewrite Hs.
    rewrite digits_then_app by (assumption || reflexivity). simpl.
    rewrite digits_then_app by (assumption || reflexivity). simpl.
    rewrite digits_then_app by (assumption || reflexivity). reflexivity. }
  assert (Hprobe : probe {| uptime_base := base |}
    = ({| uptime_base := base |},
       [ {| name := "uptime"; value := PInt seconds; uom := Some "s";
            min := Some (PInt 0); max := None |} ],
       Return tt)).
  { unfold probe, SystemUptimeResource_Resource, SystemUptimeResource_probe.
    run_eff. rewrite Hdev. simpl. unfold getitem. rewrite Hup. simpl. rewrite Hmatch.
    rewrite (py_int_digits h Dh). simpl.
    rewrite (py_int_digits m Dm). simpl.
    rewrite (py_int_digits sec Ds). reflexivity. }
  split; [exact Hprobe|]. split; [subst seconds; lia|].
  unfold system_uptime.
  change (new_ScalarContext "uptime" None None)
    with (Return {| sc_name := "uptime"; sc_warning := never_alert;
                    sc_critical := never_alert |}).
  unfold main. cbn [resource new_Check add_context].
  rewrite Hprobe. clearbody seconds. vm_compute. split; reflexivity.
Qed.

Lemma uptime_probe_reads_seconds_witness :
  let base := router ∅ [ {[ "uptime" := PStr "3h99m5s and more" ]} ] in
  let seconds :=
    digits_value (chars "3") * 60 * 60 + digits_value (chars "99") * 60
    + digits_value (chars "5") in
  probe {| uptime_base := base |}
    = ({| uptime_base := base |},
       [ {| name := "uptime"; value := PInt seconds; uom := Some "s";
            min := Some (PInt 0); max := None |} ],
       Return tt) /\
  seconds = 3600 * digits_value (chars "3") + 60 * digits_value (chars "99")
            + digits_value (chars "5") /\
  status_of (system_uptime base) = Some OK /\
  exit_code_of (system_uptime base) = Some 0.
Proof.
  apply (uptime_probe_reads_seconds
           (router ∅ [ {[ "uptime" := PStr "3h99m5s and more" ]} ])
           {[ "uptime" := PStr "3h99m5s and more" ]} [] "3h99m5s and more"
           (chars "3") (chars "99") (chars "5") (chars " and more"));
    first [reflexivity | split; [discriminate|reflexivity]].
Defined.

(** ** The ping check, on an answered ping *)

(** X11. [strip_time] keeps the first run of digits of a time and drops
    what follows as the unit: the number does not depend on the unit, so
    ["12ms"] and ["12us"] both read as 12, and of ["1s200ms"] only the 1
    is kept. Text that does not start with a digit gives (None, None),
    not an error. *)
Theorem strip_time_keeps_leading_digits (d u : list ascii) :
  digits d -> unit_text u ->
  strip_time (PStr (text (d ++ u))) = Return (PInt (digits_value d), PStr (text u)) /\
  (forall u', unit_text u' ->
     fst <$> strip_time (PStr (text (d ++ u'))) = fst <$> strip_time (PStr (text (d ++ u)))) /\
  strip_time (PStr (text u)) = Return (PNone, PNone).
Proof.
  intros Hd [Hu Hline].
  assert (Hstrip : forall v, unit_text v ->
            strip_time (PStr (text (d ++ v))) = Return (PInt (digits_value d), PStr (text v))).
  { intros v [Hv Hvline]. unfold strip_time. rewrite chars_text.
    rewrite (span_digits_run d v (proj2 Hd) Hv).
    pose proof (py_int_digits d Hd) as Hint.
    destruct d as [|c d']; [now destruct Hd|].
    rewrite Hvline. cbn [negb]. rewrite Hint. reflexivity. }
  split; [apply Hstrip; now split|]. split.
  - intros u' Hu'. rewrite (Hstrip u' Hu'), (Hstrip u (conj Hu Hline)). reflexivity.
  - unfold strip_time. rewrite chars_text.
    destruct u as [|c u]; [reflexivity|]. cbn [span_digits]. now rewrite Hu.
Qed.

Lemma strip_time_keeps_leading_digits_witness :
  strip_time (PStr (text (chars "1" ++ chars "s200ms")))
    = Return (PInt (digits_value (chars "1")), PStr (text (chars "s200ms"))) /\
  (forall u', unit_text u' ->
     fst <$> strip_time (PStr (text (chars "1" ++ u')))
     = fst <$> strip_time (PStr (text (chars "1" ++ chars "s200ms")))) /\
  strip_time (PStr (text (chars "s200ms"))) = Return (PNone, PNone).
Proof.
  apply (strip_time_keeps_leading_digits (chars "1") (chars "s200ms")).
  - split; [discriminate|reflexivity].
  - split; reflexivity.
Defined.

(** X12. From a ping reply with received above 0 the probe yields eight
    metrics in this order: packet_loss, sent, received, rtt_min, rtt_max,
    rtt_avg, size, ttl. The three round trip times are the numbers at
    the front of the texts of min-rtt, max-rtt and avg-rtt, without
    their units; rtt_avg comes last of the three although the command
    registers its context first. *)
Theorem ping_probe_answered
    (base : RouterOSCheckResource) (address : string)
    (rows : list response) (row : response) (packet_loss sent size ttl : pyval)
    (received tmin tmax tavg : Z) (smin smax savg : string) :
  device base = Return rows ->
  last rows = Some row ->
  row !! "packet-loss" = Some packet_loss ->
  row !! "sent" = Some sent ->
  row !! "received" = Some (PInt received) -> 0 < received ->
  row !! "min-rtt" = Some (PStr smin) -> time_text smin tmin ->
  row !! "max-rtt" = Some (PStr smax) -> time_text smax tmax ->
  row !! "avg-rtt" = Some (PStr savg) -> time_text savg tavg ->
  row !! "size" = Some size ->
  row !! "ttl" = Some ttl ->
  probe (new_ToolPingCheck base address)
    = (new_ToolPingCheck base address,
       [ {| name := "packet_loss"; value := packet_loss; uom := Some "%";
            min := Some (PInt 0); max := Some (PInt 100) |};
         {| name := "sent"; value := sent; uom := None;
            min := Some (PInt 0); max := Some (PInt 1) |};
         {| name := "received"; value := PInt received; uom := None;
            min := Some (PInt 0); max := Some (PInt 1) |};
         {| name := "rtt_min"; value := PInt tmin; uom := None;
            min := Some (PInt 0); max := None |};
         {| name := "rtt_max"; value := PInt tmax; uom := None;
            min := Some (PInt 0); max := None |};
         {| name := "rtt_avg"; value := PInt tavg; uom := None;
            min := Some (PInt 0); max := None |};
         plain_metric "size" size;
         {| name := "ttl"; value := ttl; uom := None;
            min := Some (PInt 0); max := Some (PInt 255) |} ],
       Return tt).
Proof.
  intros Hdev Hlast Hloss Hsent Hrecv Hpos Hmin Tmin Hmax Tmax Havg Tavg Hsize Httl.
  destruct (strip_time_time_text smin tmin Tmin) as [umin Smin].
  destruct (strip_time_time_text smax tmax Tmax) as [umax Smax].
  destruct (strip_time_time_text savg tavg Tavg) as [uavg Savg].
  assert (Hgt : py_gt (PInt received) (NInt 0) = Return true).
  { unfold py_gt. cbn [xnum_of_pyval xnum_of_number xlt].
    rewrite (Qltb_inject_Z 0 received). now rewrite (proj2 (Z.ltb_lt 0 received) Hpos). }
  unfold probe, ToolPingCheck_Resource, ToolPingCheck_probe.
  unfold mbind, mret, eff_bind, eff_ret, self, lift, yield, emit.
  cbn -[strip_time py_gt]. rewrite Hdev. cbn -[strip_time py_gt].
  unfold last_row. rewrite Hlast. cbn -[strip_time py_gt]. unfold getitem.
  rewrite Hloss, Hsent, Hrecv. cbn -[strip_time py_gt].
  rewrite Hgt. cbn -[strip_time py_gt].
  rewrite Hmin. cbn -[strip_time py_gt]. rewrite Smin. cbn -[strip_time py_gt].
  rewrite Hmax. cbn -[strip_time py_gt]. rewrite Smax. cbn -[strip_time py_gt].
  rewrite Havg. cbn -[strip_time py_gt]. rewrite Savg. cbn -[strip_time py_gt].
  rewrite Hsize, Httl. reflexivity.
Qed.

Lemma ping_probe_answered_witness :
  probe (new_ToolPingCheck (router ∅ [ping_row_answered]) "192.0.2.1")
    = (new_ToolPingCheck (router ∅ [ping_row_answered]) "192.0.2.1",
       [ {| name := "packet_loss"; value := PInt 0; uom := Some "%";
            min := Some (PInt 0); max := Some (PInt 100) |};
         {| name := "sent"; value := PInt 1; uom := None;
            min := Some (PInt 0); max := Some (PInt 1) |};
         {| name := "received"; value := PInt 1; uom := None;
            min := Some (PInt 0); max := Some (PInt 1) |};
         {| name := "rtt_min"; value := PInt 12; uom := None;
            min := Some (PInt 0); max := None |};
         {| name := "rtt_max"; value := PInt 12; uom := None;
            min := Some (PInt 0); max := None |};
         {| name := "rtt_avg"; value := PInt 12; uom := None;
            min := Some (PInt 0); max := None |};
         plain_metric "size" (PInt 56);
         {| name := "ttl"; value := PInt 64; uom := None;
            min := Some (PInt 0); max := Some (PInt 255) |} ],
       Return tt).
Proof.
  assert (T : time_text "12ms" 12).
  { exists (chars "12"), (chars "ms").
    split; [split; [discriminate|reflexivity]|]. split; [split; reflexivity|].
    split; reflexivity. }
  apply (ping_probe_answered (router ∅ [ping_row_answered]) "192.0.2.1"
           [ping_row_answered] ping_row_answered (PInt 0) (PInt 1) (PInt 56) (PInt 64)
           1 12 12 12 "12ms" "12ms" "12ms");
    first [reflexivity | exact T | lia].
Defined.

(** ** The memory check *)


(** ** The resolution of percent thresholds *)

Section Resolution.
Context {R : Type} `{!Resource R}.

Lemma prepare_ranges_first (this : ScalarPercentContext) (m : Metric)
    (resource : R) (total : pyval) (wtext ctext : string) (w c : Range) :
  warning this = None \/ critical this = None ->
  getattr resource (_total_name this) = Return total ->
  regex_sub total (_warning this) = Return wtext ->
  regex_sub total (_critical this) = Return ctext ->
  parse wtext = Return w ->
  parse ctext = Return c ->
  _prepare_ranges m resource this
    = (set_critical c (set_warning w this), [wtext; ctext], Return tt).
Proof.
  intros Hnone Hattr Hw Hc Hpw Hpc.
  enter_resolution Hnone. rewrite Hattr. cbv beta iota.
  rewrite Hw. cbv beta iota. rewrite Hc. cbv beta iota.
  rewrite Hpw. cbv beta iota. rewrite Hpc. reflexivity.
Qed.

Lemma evaluate_first (this : ScalarPercentContext) (m : Metric)
    (resource : R) (total : pyval) (wtext ctext : string) (w c : Range) :
  warning this = None \/ critical this = None ->
  getattr resource (_total_name this) = Return total ->
  regex_sub total (_warning this) = Return wtext ->
  regex_sub total (_critical this) = Return ctext ->
  parse wtext = Return w ->
  parse ctext = Return c ->
  ScalarPercentContext_evaluate m resource this
    = (set_critical c (set_warning w this), [wtext; ctext], scalar_evaluate w c m).
Proof.
  intros Hnone Hattr Hw Hc Hpw Hpc.
  unfold ScalarPercentContext_evaluate, mbind, eff_bind.
  rewrite (prepare_ranges_first this m resource total wtext ctext w c) by assumption.
  unfold super_evaluate. run_eff. destruct (scalar_evaluate w c m); reflexivity.
Qed.

(** X14. The first resolution of an instance, when the total can be
    read, both specs can be rewritten and both rewritten specs parse:
    it writes the two rewritten specs, sets both ranges, and [evaluate]
    and [performance] answer from these ranges. *)
Theorem first_resolution_sets_both_ranges (this : ScalarPercentContext) (m : Metric)
    (resource : R) (total : pyval) (wtext ctext : string) (w c : Range) :
  warning this = None \/ critical this = None ->
  getattr resource (_total_name this) = Return total ->
  regex_sub total (_warning this) = Return wtext ->
  regex_sub total (_critical this) = Return ctext ->
  parse wtext = Return w ->
  parse ctext = Return c ->
  let this' := set_critical c (set_warning w this) in
  _prepare_ranges m resource this = (this', [wtext; ctext], Return tt) /\
  warning this' = Some w /\ critical this' = Some c /\
  ScalarPercentContext_evaluate m resource this
    = (this', [wtext; ctext], scalar_evaluate w c m) /\
  ScalarPercentContext_performance m resource this
    = (this', [wtext; ctext], Return (scalar_performance w c m)).
Proof.
  intros Hnone Hattr Hw Hc Hpw Hpc this'.
  pose proof (prepare_ranges_first this m resource total wtext ctext w c
                Hnone Hattr Hw Hc Hpw Hpc) as Hprep.
  split; [exact Hprep|]. split; [reflexivity|]. split; [reflexivity|]. split.
  - now apply (evaluate_first this m resource total).
  - unfold ScalarPercentContext_performance, mbind, eff_bind. rewrite Hprep.
    reflexivity.
Qed.

(** X15. A percent threshold cannot be resolved before the total is
    there: when the total is still None, a spec of digits and a percent
    sign makes the resolution fail with the TypeError of [float(None)];
    nothing is written, no range is set, and [evaluate] fails the same
    way. *)
Theorem percent_threshold_needs_the_total (this : ScalarPercentContext) (m : Metric)
    (resource : R) (d : string) :
  warning this = None \/ critical this = None ->
  getattr resource (_total_name this) = Return PNone ->
  _warning this = Some (d +:+ "%") ->
  all_digits d = true -> d <> "" ->
  exists msg,
    _prepare_ranges m resource this = (this, [], Raise (TypeError msg)) /\
    ScalarPercentContext_evaluate m resource this = (this, [], Raise (TypeError msg)).
Proof.
  intros Hnone Hattr Hw Hd Hne. eexists.
  assert (Hprep : _prepare_ranges m resource this
                  = (this, [], Raise (TypeError
                       "float() argument must be a string or a real number, not 'NoneType'"))).
  { enter_resolution Hnone. rewrite Hattr. cbv beta iota.
    rewrite Hw, (regex_sub_percent_token PNone d Hd Hne). reflexivity. }
  split; [exact Hprep|].
  unfold ScalarPercentContext_evaluate, mbind, eff_bind. now rewrite Hprep.
Qed.
End Resolution.

Lemma first_resolution_sets_both_ranges_witness :
  let this := new_ScalarPercentContext "free" "memory_total" (Some "10%:") (Some "5%:") in
  let resource := {| memory_base := router ∅ []; memory_total := PInt 1000 |} in
  let m := bytes "free" 80 1000 in
  exists w c,
    parse "100.0:" = Return w /\ parse "50.0:" = Return c /\
    _prepare_ranges m resource this
      = (set_critical c (set_warning w this), ["100.0:"; "50.0:"], Return tt) /\
    warning (set_critical c (set_warning w this)) = Some w /\
    critical (set_critical c (set_warning w this)) = Some c /\
    ScalarPercentContext_evaluate m resource this
      = (set_critical c (set_warning w this), ["100.0:"; "50.0:"], scalar_evaluate w c m) /\
    ScalarPercentContext_performance m resource this
      = (set_critical c (set_warning w this), ["100.0:"; "50.0:"],
         Return (scalar_performance w c m)).
Proof.
  intros this resource m. eexists _, _.
  split; [vm_compute; reflexivity|]. split; [vm_compute; reflexivity|].
  apply (first_resolution_sets_both_ranges (R := SystemMemoryResource) this m resource
           (PInt 1000) "100.0:" "50.0:"); first [left; reflexivity | vm_compute; reflexivity].
Defined.

Lemma percent_threshold_needs_the_total_witness :
  let this := new_ScalarPercentContext "used" "memory_total" (Some ("70" +:+ "%")) (Some "90%") in
  let resource := new_SystemMemoryResource (router ∅ []) in
  let m := bytes "used" 800 1000 in
  exists msg,
    _prepare_ranges m resource this = (this, [], Raise (TypeError msg)) /\
    ScalarPercentContext_evaluate m resource this = (this, [], Raise (TypeError msg)).
Proof.
  intros this resource m.
  apply (percent_threshold_needs_the_total (R := SystemMemoryResource) this m resource "70");
    first [left; reflexivity | reflexivity | discriminate].
Defined.

(** The errors of [replace] on the unit [%] are those of [float()]. *)
Lemma replace_percent_error (total : pyval) (v : string) (e : exn) :
  replace total v "%" = Raise e -> e <> ValueError "Unable to convert type".
Proof.
  unfold replace. cbn [String.eqb Ascii.eqb Bool.eqb].
  assert (Hstr : forall s e', float_of_str s = Raise e' ->
                   e' <> ValueError "Unable to convert type").
  { intros s e'. unfold float_of_str. destruct (read_float s); [discriminate|].
    intros [= <-] H. vm_compute in H. discriminate H. }
  assert (Hint : forall z e', float_of_int z = Raise e' ->
                   e' <> ValueError "Unable to convert type").
  { intros z e'. unfold float_of_int. destruct (round_Z z 0); try discriminate.
    intros [= <-]. discriminate. }
  assert (Hfloat : forall x e', py_float x = Raise e' ->
                   e' <> ValueError "Unable to convert type").
  { intros [| b | z | f | s] e'; cbn [py_float]; eauto; try discriminate.
    intros [= <-]. discriminate. }
  destruct (py_float total) as [t|e1] eqn:Ht; cbn [mbind res_bind].
  2: { intros [= <-]. eauto. }
  destruct (py_float (PStr v)) as [pc|e2] eqn:Hv; cbn [mbind res_bind].
  2: { intros [= <-]. eauto. }
  destruct (float_of_int 100) as [hundred|e3] eqn:Hh; cbn [mbind res_bind];
    [discriminate|].
  intros [= <-]. eauto.
Qed.

Lemma sub_percent_error (total : pyval) (l run : list ascii) :
  sub_percent (replace total) run l <> Raise (ValueError "Unable to convert type").
Proof.
  revert run. induction l as [|c l IH]; intros run; cbn [sub_percent]; [discriminate|].
  destruct (is_digit c); [apply IH|].
  destruct (Ascii.eqb c "%" && match run with [] => false | _ :: _ => true end).
  - destruct (replace total (text run) "%") as [r|e] eqn:Hr; cbn [mbind res_bind].
    + specialize (IH []). destruct (sub_percent (replace total) [] l);
        cbn [mbind res_bind]; [discriminate|exact IH].
    + intros [= ->]. now apply (replace_percent_error total (text run) _ Hr).
  - specialize (IH []). destruct (sub_percent (replace total) [] l);
      cbn [mbind res_bind]; [discriminate|exact IH].
Qed.

(** X16. The error ["Unable to convert type"] of [replace] is dead code:
    [replace] raises it for every unit but the percent sign, and the
    pattern hands it no other unit, so the rewriting of a spec never
    fails with it, whatever the spec and the total are. *)
Theorem unable_to_convert_type_is_never_raised (total : pyval) (spec : option string) :
  (forall value unit, unit <> "%" ->
     replace total value unit = Raise (ValueError "Unable to convert type")) /\
  regex_sub total spec <> Raise (ValueError "Unable to convert type").
Proof.
  split.
  - intros v unit Hu. unfold replace.
    destruct (String.eqb_spec unit "%"); [contradiction|reflexivity].
  - destruct spec as [s|]; [|discriminate]. apply sub_percent_error.
Qed.

(** ** The summary of the memory check *)

Lemma result_by_name_spec (results : list Result) (n : string) :
  match result_by_name results n with
  | Return r => In r results /\ exists m, metric r = Some m /\ name m = n
  | Raise e =>
      e = KeyError n /\ forall r m, In r results -> metric r = Some m -> name m <> n
  end.
Proof.
  unfold result_by_name.
  destruct (find _ results) as [r|] eqn:Hfind.
  - apply find_some in Hfind as [Hin Hname]. split; [exact Hin|].
    destruct (metric r) as [m|]; [|discriminate]. exists m. split; [reflexivity|].
    now apply String.eqb_eq.
  - split; [reflexivity|]. intros r m Hin Hm Hn.
    pose proof (find_none _ _ Hfind r Hin) as Hno. cbv beta in Hno.
    rewrite Hm in Hno. apply String.eqb_neq in Hno. contradiction.
Qed.

(** X17. The summary of an OK memory check is made of one result per
    name it was given, in the order of the names: each is a result of
    the check whose metric has that name. When a name has no result, the
    summary fails with the KeyError of that name. *)
Theorem memory_summary_names_its_results (names : list string) (results : list Result) :
  match SystemMemorySummary_ok names results with
  | Return t =>
      exists rs, t = OfResults rs /\
        Forall2 (fun n r => In r results /\ exists m, metric r = Some m /\ name m = n)
                names rs
  | Raise e =>
      exists n, e = KeyError n /\ In n names /\
        forall r m, In r results -> metric r = Some m -> name m <> n
  end.
Proof.
  unfold SystemMemorySummary_ok.
  assert (H : match mapM (result_by_name results) names with
              | Return rs =>
                  Forall2 (fun n r => In r results /\
                                      exists m, metric r = Some m /\ name m = n) names rs
              | Raise e =>
                  exists n, e = KeyError n /\ In n names /\
                    forall r m, In r results -> metric r = Some m -> name m <> n
              end).
  { induction names as [|n names IH]; cbn [mapM]; [constructor|].
    pose proof (result_by_name_spec results n) as Hn.
    destruct (result_by_name results n) as [r|e]; cbn [mbind res_bind].
    - destruct (mapM (result_by_name results) names) as [rs|e]; cbn [mbind res_bind mret res_ret].
      + now constructor.
      + destruct IH as (k & -> & Hin & Hno). exists k. split; [reflexivity|].
        split; [now right|exact Hno].
    - destruct Hn as [-> Hno]. exists n. split; [reflexivity|]. split; [now left|exact Hno]. }
  destruct (mapM (result_by_name results) names) as [rs|e]; cbn [fmap res_fmap].
  - exists rs. now split.
  - exact H.
Qed.

(** ** Probes that get no row *)

(** X18. When the connection or the query fails, each probe ends with
    that error, and when the reply has no row, with the IndexError of
    the empty tuple; no metric is yielded and the resource is as it was
    made. The two guarded commands then end with the status UNKNOWN
    and the exit code 3, whatever the thresholds of the memory check
    are, since these are not looked at before the probe has run. *)
Theorem probe_without_row (base : RouterOSCheckResource) (e : exn)
    (n address : string) (must : pyval) (used : bool) (w c : string) :
  device base = Raise e \/
  (device base = Return [] /\ e = IndexError "tuple index out of range") ->
  probe (new_SystemMemoryResource base) = (new_SystemMemoryResource base, [], Raise e) /\
  probe {| uptime_base := base |} = ({| uptime_base := base |}, [], Raise e) /\
  probe (new_ToolPingCheck base address) = (new_ToolPingCheck base address, [], Raise e) /\
  probe (new_InterfaceVrrpCheck base n must)
    = (new_InterfaceVrrpCheck base n must, [], Raise e) /\
  system_memory base used w c = ([], Exit UNKNOWN (OfException e) [] 3) /\
  system_uptime base = ([], Exit UNKNOWN (OfException e) [] 3).
Proof.
  intros Hdev.
  assert (Hm : probe (new_SystemMemoryResource base)
               = (new_SystemMemoryResource base, [], Raise e)).
  { unfold probe, SystemMemoryResource_Resource, SystemMemoryResource_probe. run_eff.
    destruct Hdev as [->|[-> ->]]; reflexivity. }
  assert (Hu : probe {| uptime_base := base |} = ({| uptime_base := base |}, [], Raise e)).
  { unfold probe, SystemUptimeResource_Resource, SystemUptimeResource_probe. run_eff.
    destruct Hdev as [->|[-> ->]]; reflexivity. }
  split; [exact Hm|]. split; [exact Hu|]. split; [|split; [|split]].
  - unfold probe, ToolPingCheck_Resource, ToolPingCheck_probe. run_eff.
    destruct Hdev as [->|[-> ->]]; reflexivity.
  - unfold probe, InterfaceVrrpCheck_Resource, InterfaceVrrpCheck_probe. run_eff.
    destruct Hdev as [->|[-> ->]]; reflexivity.
  - unfold system_memory.
    change (new_ScalarContext "free" None None)
      with (Return {| sc_name := "free"; sc_warning := never_alert;
                      sc_critical := never_alert |}).
    change (new_ScalarContext "used" None None)
      with (Return {| sc_name := "used"; sc_warning := never_alert;
                      sc_critical := never_alert |}).
    destruct used; cbn [mbind res_bind]; unfold main;
      cbn [fold_left resource add_context add_summary new_Check]; rewrite Hm; reflexivity.
  - unfold system_uptime.
    change (new_ScalarContext "uptime" None None)
      with (Return {| sc_name := "uptime"; sc_warning := never_alert;
                      sc_critical := never_alert |}).
    unfold main. cbn [resource add_context new_Check]. rewrite Hu. reflexivity.
Qed.

Lemma probe_without_row_witness :
  let base := router ∅ [] in
  let e := IndexError "tuple index out of range" in
  probe (new_SystemMemoryResource base) = (new_SystemMemoryResource base, [], Raise e) /\
  probe {| uptime_base := base |} = ({| uptime_base := base |}, [], Raise e) /\
  probe (new_ToolPingCheck base "192.0.2.1")
    = (new_ToolPingCheck base "192.0.2.1", [], Raise e) /\
  probe (new_InterfaceVrrpCheck base "vrrp1" (PBool false))
    = (new_InterfaceVrrpCheck base "vrrp1" (PBool false), [], Raise e) /\
  system_memory base true "70%" "no range" = ([], Exit UNKNOWN (OfException e) [] 3) /\
  system_uptime base = ([], Exit UNKNOWN (OfException e) [] 3).
Proof.
  apply (probe_without_row (router ∅ []) (IndexError "tuple index out of range")
           "vrrp1" "192.0.2.1" (PBool false) true "70%" "no range").
  right. split; reflexivity.
Defined.

(** ** The ping command *)

(** A range never fails on an integer. *)
Lemma scalar_evaluate_int (w c : Range) (m : Metric) (z : Z) :
  value m = PInt z ->
  exists r, scalar_evaluate w c m = Return r /\ metric r = Some m /\ state r <> UNKNOWN.
Proof.
  intros Hv. unfold scalar_evaluate, Range_evaluate, py_lt, py_gt. rewrite Hv.
  cbn [xnum_of_pyval mbind res_bind].
  destruct (xorb _ (invert c)); [eexists; split; [reflexivity|split; [reflexivity|discriminate]]|].
  destruct (xorb _ (invert w)); eexists; (split; [reflexivity|split; [reflexivity|discriminate]]).
Qed.

Lemma never_alert_int (m : Metric) (z : Z) :
  value m = PInt z ->
  scalar_evaluate never_alert never_alert m
    = Return {| state := OK; result_hint := NoHint; metric := Some m |}.
Proof.
  intros Hv. unfold scalar_evaluate, Range_evaluate, py_lt, py_gt. rewrite Hv. reflexivity.
Qed.

(** One step of the aggregator on a metric whose context is a plain
    ScalarContext. *)
Lemma evaluate_metrics_scalar {R : Type} `{!Resource R} (r : R) (m : Metric)
    (ms : list Metric) (cs : gmap string context) (sc : ScalarContext) (res : Result) :
  cs !! name m = Some (Scalar sc) ->
  scalar_evaluate (sc_warning sc) (sc_critical sc) m = Return res ->
  evaluate_metrics r (m :: ms) cs
  = match evaluate_metrics r ms cs with
    | (cs', out, Return (results, perfs)) =>
        (cs', out,
         Return (res :: results,
                 scalar_performance (sc_warning sc) (sc_critical sc) m :: perfs))
    | (cs', out, Raise e) => (cs', out, Raise e)
    end.
Proof.
  intros Hcs Hres. cbn [evaluate_metrics].
  unfold mbind, mret, eff_bind, eff_ret, self, lift, update, print_all.
  rewrite Hcs. cbn [evaluate performance context_Context].
  unfold lift. rewrite Hres. cbn [app].
  rewrite (insert_id cs (name m) (Scalar sc) Hcs).
  destruct (evaluate_metrics r ms cs) as [[cs' out] [[results perfs]|e]];
    cbn; rewrite ?app_nil_r; reflexivity.
Qed.

(** X19. When the ping got no answer, the status of the command is the
    one the thresholds of the packet loss give to the packet loss: the
    thresholds of the ttl, once they parse, have no effect, since no ttl
    is measured, and sent and received are never alerted on. The
    performance data are those of packet_loss, sent and received. *)
Theorem tool_ping_without_answer
    (base : RouterOSCheckResource) (address : string)
    (rows : list response) (row : response) (loss sent : Z)
    (packet_loss_warning packet_loss_critical ttl_warning ttl_critical : option string)
    (w c tw tc : Range) :
  device base = Return rows ->
  last rows = Some row ->
  row !! "packet-loss" = Some (PInt loss) ->
  row !! "sent" = Some (PInt sent) ->
  row !! "received" = Some (PInt 0) ->
  parse (default "" packet_loss_warning) = Return w ->
  parse (default "" packet_loss_critical) = Return c ->
  parse (default "" ttl_warning) = Return tw ->
  parse (default "" ttl_critical) = Return tc ->
  let run := tool_ping base address packet_loss_warning packet_loss_critical
               ttl_warning ttl_critical in
  let m := {| name := "packet_loss"; value := PInt loss; uom := Some "%";
              min := Some (PInt 0); max := Some (PInt 100) |} in
  exists r,
    scalar_evaluate w c m = Return r /\
    status_of run = Some (state r) /\
    exit_code_of run = Some (exit_code (state r)) /\
    map label <$> perfdata_of run = Some ["packet_loss"; "sent"; "received"].
Proof.
  intros Hdev Hlast Hloss Hsent Hrecv Hw Hc Htw Htc run m.
  destruct (scalar_evaluate_int w c m loss eq_refl) as (r & Hr & Hm & Hst).
  exists r. split; [exact Hr|].
  subst run. unfold tool_ping, new_ScalarContext.
  rewrite Hw, Hc, Htw, Htc.
  change (parse (default "" None)) with (Return never_alert).
  cbn [mbind res_bind fold_left]. unfold main.
  cbn [resource new_Check add_context].
  assert (Hprobe : probe (new_ToolPingCheck base address)
            = (new_ToolPingCheck base address,
               [ m;
                 {| name := "sent"; value := PInt sent; uom := None;
                    min := Some (PInt 0); max := Some (PInt 1) |};
                 {| name := "received"; value := PInt 0; uom := None;
                    min := Some (PInt 0); max := Some (PInt 1) |} ],
               Return tt)).
  { unfold probe, ToolPingCheck_Resource, ToolPingCheck_probe.
    run_eff. rewrite Hdev. simpl. unfold last_row. rewrite Hlast. simpl.
    unfold getitem. rewrite Hloss, Hsent, Hrecv. reflexivity. }
  rewrite Hprobe. cbn [contexts add_context new_Check context_name context_Context sc_name].
  set (m_sent := {| name := "sent"; value := PInt sent; uom := None;
                    min := Some (PInt 0); max := Some (PInt 1) |}).
  set (m_received := {| name := "received"; value := PInt 0; uom := None;
                        min := Some (PInt 0); max := Some (PInt 1) |}).
  rewrite (evaluate_metrics_scalar _ m [m_sent; m_received] _
             {| sc_name := "packet_loss"; sc_warning := w; sc_critical := c |} r);
    [|by simplify_map_eq|exact Hr].
  rewrite (evaluate_metrics_scalar _ m_sent [m_received] _
             {| sc_name := "sent"; sc_warning := never_alert;
                sc_critical := never_alert |}
             {| state := OK; result_hint := NoHint; metric := Some m_sent |});
    [|by simplify_map_eq|exact (never_alert_int m_sent sent eq_refl)].
  rewrite (evaluate_metrics_scalar _ m_received [] _
             {| sc_name := "received"; sc_warning := never_alert;
                sc_critical := never_alert |}
             {| state := OK; result_hint := NoHint; metric := Some m_received |});
    [|by simplify_map_eq|exact (never_alert_int m_received 0 eq_refl)].
  cbn [evaluate_metrics]. unfold mret, eff_ret.
  cbn [map state]. 
  assert (Hoverall : overall [state r; OK; OK] = state r) by (destruct (state r); reflexivity).
  rewrite Hoverall.
  destruct (bool_decide (state r = OK)); cbn; repeat split.
Qed.

Lemma tool_ping_without_answer_witness :
  let run := tool_ping (router ∅ [ping_row_lost]) "192.0.2.1" (Some "50") (Some "90")
               (Some "10:") None in
  let m := {| name := "packet_loss"; value := PInt 100; uom := Some "%";
              min := Some (PInt 0); max := Some (PInt 100) |} in
  exists w c r,
    parse "50" = Return w /\ parse "90" = Return c /\
    scalar_evaluate w c m = Return r /\
    status_of run = Some (state r) /\
    exit_code_of run = Some (exit_code (state r)) /\
    map label <$> perfdata_of run = Some ["packet_loss"; "sent"; "received"].
Proof.
  intros run m.
  destruct (parse "50") as [w|] eqn:Hw; [|discriminate Hw].
  destruct (parse "90") as [c|] eqn:Hc; [|discriminate Hc].
  destruct (parse "10:") as [tw|] eqn:Htw; [|discriminate Htw].
  exists w, c.
  destruct (tool_ping_without_answer (router ∅ [ping_row_lost]) "192.0.2.1"
              [ping_row_lost] ping_row_lost 100 1 (Some "50") (Some "90") (Some "10:") None
              w c tw never_alert eq_refl eq_refl eq_refl eq_refl eq_refl Hw Hc Htw eq_refl)
    as (r & Hr & Hrun).
  exists r. split; [reflexivity|]. split; [reflexivity|]. split; [exact Hr|exact Hrun].
Defined.

(** ** The memory check with thresholds in bytes *)

Lemma digit_val_nonneg (c : ascii) : is_digit c = true -> 0 <= digit_val c.
Proof. unfold is_digit, digit_val. intros H. apply andb_prop in H as [H _]. lia. Qed.

Lemma digits_value_nonneg (d : list ascii) : forallb is_digit d = true -> 0 <= digits_value d.
Proof.
  unfold digits_value.
  enough (H : forall acc, 0 <= acc -> forallb is_digit d = true ->
                0 <= fold_left (fun acc c => 10 * acc + digit_val c) d acc).
  { apply (H 0). lia. }
  induction d as [|c d IH]; intros acc Hacc Hd; simpl; [exact Hacc|].
  simpl in Hd. apply andb_prop in Hd as [Hc Hd]. apply IH; [|exact Hd].
  pose proof (digit_val_nonneg c Hc). lia.
Qed.

Lemma digits_have_no (x : ascii) (d : list ascii) :
  (forall c, plainc c = true -> Ascii.eqb x c = false) ->
  forallb is_digit d = true -> contains x (text d) = false.
Proof.
  intros Hx Hd. rewrite contains_existsb, chars_text.
  apply existsb_plain; [exact Hx|now apply digits_plain].
Qed.

Lemma split_colon_digits (d : list ascii) (rest : string) :
  forallb is_digit d = true ->
  split_colon (text d +:+ String ":" rest) = (text d, rest).
Proof.
  intros Hd. induction d as [|c d IH].
  - reflexivity.
  - simpl in Hd. apply andb_prop in Hd as [Hc Hd].
    change (text (c :: d) +:+ String ":" rest) with (String c (text d +:+ String ":" rest)).
    cbn [split_colon].
    assert (Hp : plainc c = true) by (unfold plainc; now rewrite Hc).
    destruct (plainc_not_special c Hp) as (_&_&_&_&_&_&_&Hcolon&_).
    rewrite Ascii.eqb_sym, Hcolon, (IH Hd). reflexivity.
Qed.

Lemma contains_append (x : ascii) (a b : string) :
  contains x (a +:+ b) = contains x a || contains x b.
Proof.
  rewrite !contains_existsb, chars_append, existsb_app. reflexivity.
Qed.

(** The range of a spec of digits: from 0 to the number. *)
Lemma parse_digits (d : list ascii) :
  digits d ->
  parse (text d) = Return {| invert := false; start := NInt 0;
                             end_ := NInt (digits_value d) |}.
Proof.
  intros Hd. pose proof (py_int_digits d Hd) as Hint.
  destruct Hd as [Hne Hd].
  pose proof (digits_value_nonneg d Hd) as Hpos.
  assert (Hcolon : contains ":" (text d) = false).
  { apply digits_have_no; [|exact Hd].
    intros c Hc. now destruct (plainc_not_special c Hc) as (_&_&_&_&_&_&_&?&_). }
  assert (Hpoint : contains "." (text d) = false).
  { apply digits_have_no; [|exact Hd].
    intros c Hc. now destruct (plainc_not_special c Hc) as (_&_&_&_&_&_&_&_&?). }
  destruct d as [|c d]; [contradiction|].
  assert (Hc : plainc c = true).
  { simpl in Hd. apply andb_prop in Hd as [Hc _]. unfold plainc. now rewrite Hc. }
  destruct (plainc_not_special c Hc) as (_ & _ & _ & _ & _ & Hat & Htilde & _).
  remember (text (c :: d)) as spec eqn:Hspec.
  assert (Hs : spec = String c (text d)) by (subst; reflexivity).
  unfold parse.
  rewrite Hs at 1. cbn [String.eqb].
  rewrite Hs at 1. rewrite Hat.
  unfold split_bounds. rewrite Hcolon.
  cbn [mbind res_bind].
  change ("" =? "~")%string with false.
  change (parse_atom "" (NInt 0)) with (Return (NInt 0) : res number).
  cbn [mbind res_bind].
  assert (Hnt : (spec =? "~")%string = false)
    by (rewrite Hs; cbn [String.eqb]; now rewrite Htilde).
  assert (Hnonempty : (spec =? "")%string = false) by (rewrite Hs; reflexivity).
  rewrite Hnt. unfold parse_atom. rewrite Hnonempty, Hpoint, Hint.
  cbn [fmap res_fmap mbind res_bind xnum_of_number xlt].
  rewrite Qltb_inject_Z. now rewrite (proj2 (Z.ltb_ge _ _) Hpos).
Qed.

(** The range of a spec of digits and a colon: from the number upwards. *)
Lemma parse_digits_colon (d : list ascii) :
  digits d ->
  parse (text d +:+ ":") = Return {| invert := false; start := NInt (digits_value d);
                                     end_ := NFloat float_inf |}.
Proof.
  intros Hd. pose proof (py_int_digits d Hd) as Hint.
  destruct Hd as [Hne Hd].
  assert (Hsplit : split_colon (text d +:+ ":") = (text d, "")) by now apply split_colon_digits.
  assert (Hcolon : contains ":" (text d +:+ ":") = true).
  { rewrite contains_append. apply orb_true_r. }
  assert (Hpoint : contains "." (text d) = false).
  { apply digits_have_no; [|exact Hd].
    intros c Hc. now destruct (plainc_not_special c Hc) as (_&_&_&_&_&_&_&_&?). }
  destruct d as [|c d]; [contradiction|].
  assert (Hc : plainc c = true).
  { simpl in Hd. apply andb_prop in Hd as [Hc _]. unfold plainc. now rewrite Hc. }
  destruct (plainc_not_special c Hc) as (_ & _ & _ & _ & _ & Hat & Htilde & _).
  remember (text (c :: d)) as a eqn:Ha.
  assert (Has : a = String c (text d)) by (subst; reflexivity).
  remember (a +:+ ":") as spec eqn:Hspec.
  assert (Hs : spec = String c (text d +:+ ":")) by (subst; reflexivity).
  unfold parse.
  rewrite Hs at 1. cbn [String.eqb].
  rewrite Hs at 1. rewrite Hat.
  unfold split_bounds. rewrite Hcolon, Hsplit.
  change (contains ":" "") with false. cbn [mbind res_bind].
  assert (Hnt : (a =? "~")%string = false)
    by (rewrite Has; cbn [String.eqb]; now rewrite Htilde).
  assert (Hnonempty : (a =? "")%string = false) by (rewrite Has; reflexivity).
  assert (Hatom : forall open, parse_atom a open = Return (NInt (digits_value (c :: d))))
    by (intros open; unfold parse_atom; now rewrite Hnonempty, Hpoint, Hint).
  rewrite Hnt, Hatom. reflexivity.
Qed.

(** One step of the aggregator on a metric whose context is a
    ScalarPercentContext that resolves its ranges at this metric. *)
Lemma evaluate_metrics_percent {R : Type} `{!Resource R} (r : R) (m : Metric)
    (ms : list Metric) (cs : gmap string context) (pc pc' : ScalarPercentContext)
    (out : list string) (res : Result) (perf : Performance) :
  cs !! name m = Some (ScalarPercent pc) ->
  ScalarPercentContext_evaluate m r pc = (pc', out, Return res) ->
  ScalarPercentContext_performance m r pc' = (pc', [], Return perf) ->
  evaluate_metrics r (m :: ms) cs
  = match evaluate_metrics r ms (<[name m := ScalarPercent pc']> cs) with
    | (cs', o, Return (results, perfs)) =>
        (cs', (out ++ o)%list, Return (res :: results, perf :: perfs))
    | (cs', o, Raise e) => (cs', (out ++ o)%list, Raise e)
    end.
Proof.
  intros Hcs Hev Hperf. cbn [evaluate_metrics].
  unfold mbind, mret, eff_bind, eff_ret, self, lift, update, print_all.
  rewrite Hcs. cbn [evaluate performance context_Context]. unfold on_percent.
  rewrite Hev, Hperf. cbn [app].
  destruct (evaluate_metrics r ms _) as [[cs' o] [[results perfs]|e]];
    cbn; rewrite ?app_nil_r; reflexivity.
Qed.

Lemma lower_bound_evaluate (v z : Z) :
  Range_evaluate {| invert := false; start := NInt v; end_ := NFloat float_inf |} (PInt z)
  = Return (z <? v).
Proof.
  unfold Range_evaluate, py_lt, py_gt.
  cbn [xnum_of_pyval xnum_of_number start end_ invert mbind res_bind xlt
       xnum_of_float float_inf].
  rewrite Qltb_inject_Z. now rewrite orb_false_r, xorb_false_r.
Qed.

Lemma upper_bound_evaluate (v z : Z) :
  Range_evaluate {| invert := false; start := NInt 0; end_ := NInt v |} (PInt z)
  = Return ((z <? 0) || (v <? z)).
Proof.
  unfold Range_evaluate, py_lt, py_gt.
  cbn [xnum_of_pyval xnum_of_number start end_ invert mbind res_bind xlt].
  change (XFin 0) with (XFin (inject_Z 0)).
  rewrite !Qltb_inject_Z. now rewrite xorb_false_r.
Qed.

(** The tiers on two alert bits. *)
Lemma scalar_evaluate_tiers (w c : Range) (m : Metric) (is_warn is_crit : bool) :
  Range_evaluate w (value m) = Return is_warn ->
  Range_evaluate c (value m) = Return is_crit ->
  exists res,
    scalar_evaluate w c m = Return res /\ metric res = Some m /\
    state res = (if is_crit then CRITICAL else if is_warn then WARNING else OK).
Proof.
  intros Hw Hc. unfold scalar_evaluate. rewrite Hc. cbn [mbind res_bind].
  destruct is_crit; [eexists; repeat split|].
  rewrite Hw. cbn [mbind res_bind].
  destruct is_warn; eexists; repeat split.
Qed.

Lemma memory_probe_run (base : RouterOSCheckResource) (row : response)
    (rows : list response) (free total : Z) :
  device base = Return (row :: rows) ->
  row !! "free-memory" = Some (PInt free) ->
  row !! "total-memory" = Some (PInt total) ->
  probe (new_SystemMemoryResource base)
    = (set_memory_total (PInt total) (new_SystemMemoryResource base),
       [bytes "free" free total; bytes "used" (total - free) total], Return tt).
Proof.
  intros Hdev Hfree Htotal.
  unfold probe, SystemMemoryResource_Resource, SystemMemoryResource_probe.
  run_eff. rewrite Hdev. simpl. unfold getitem. rewrite Hfree, Htotal. reflexivity.
Qed.

Lemma digits_colon_has_no_percent (d : list ascii) :
  forallb is_digit d = true -> contains "%" (text d +:+ ":") = false.
Proof.
  intros Hd. rewrite contains_append.
  rewrite (digits_have_no "%" d plainc_not_percent Hd). reflexivity.
Qed.

(** X20. With [--free] and thresholds given in digits, as bytes, the
    thresholds are lower bounds on the free memory: the command hands
    the specs on with a colon added, and the status is CRITICAL when the
    free memory is below the critical threshold, else WARNING when it is
    below the warning threshold, else OK. The used memory is reported
    and never alerted on. The two specs also appear on standard output,
    ahead of the status line. *)
Theorem system_memory_free_thresholds_are_lower_bounds
    (base : RouterOSCheckResource) (row : response) (rows : list response)
    (free total : Z) (dw dc : list ascii) :
  device base = Return (row :: rows) ->
  row !! "free-memory" = Some (PInt free) ->
  row !! "total-memory" = Some (PInt total) ->
  digits dw -> digits dc ->
  let run := system_memory base false (text dw) (text dc) in
  let st := if free <? digits_value dc then CRITICAL
            else if free <? digits_value dw then WARNING else OK in
  status_of run = Some st /\
  exit_code_of run = Some (exit_code st) /\
  map label <$> perfdata_of run = Some ["free"; "used"] /\
  fst run = [text dw +:+ ":"; text dc +:+ ":"].
Proof.
  intros Hdev Hfree Htotal Dw Dc run st. subst run.
  set (rw := {| invert := false; start := NInt (digits_value dw);
                end_ := NFloat float_inf |}).
  set (rc := {| invert := false; start := NInt (digits_value dc);
                end_ := NFloat float_inf |}).
  set (m := bytes "free" free total).
  set (m_used := bytes "used" (total - free) total).
  set (r := set_memory_total (PInt total) (new_SystemMemoryResource base)).
  set (pc := new_ScalarPercentContext "free" "memory_total"
               (Some (text dw +:+ ":")) (Some (text dc +:+ ":"))).
  destruct (scalar_evaluate_tiers rw rc m _ _
              (lower_bound_evaluate (digits_value dw) free)
              (lower_bound_evaluate (digits_value dc) free))
    as (res & Hres & Hmetric & Hstate).
  fold st in Hstate.
  assert (Hev : ScalarPercentContext_evaluate m r pc
                = (set_critical rc (set_warning rw pc),
                   [text dw +:+ ":"; text dc +:+ ":"], Return res)).
  { rewrite <- Hres.
    apply (evaluate_first pc m r (PInt total)).
    - left; reflexivity.
    - reflexivity.
    - apply regex_sub_without_percent, digits_colon_has_no_percent, Dw.
    - apply regex_sub_without_percent, digits_colon_has_no_percent, Dc.
    - now apply parse_digits_colon.
    - now apply parse_digits_colon. }
  pose proof (performance_resolved (set_critical rc (set_warning rw pc)) rw rc m r
                eq_refl eq_refl) as Hperf.
  unfold system_memory.
  change (new_ScalarContext "used" None None)
    with (Return {| sc_name := "used"; sc_warning := never_alert;
                    sc_critical := never_alert |}).
  cbn [mbind res_bind fold_left]. unfold main.
  cbn [resource new_Check add_context add_summary contexts context_name context_Context
       sc_name spc_name new_ScalarPercentContext summary].
  rewrite (memory_probe_run base row rows free total Hdev Hfree Htotal).
  fold m m_used r pc.
  rewrite (evaluate_metrics_percent r m [m_used] _ pc
             (set_critical rc (set_warning rw pc))
             [text dw +:+ ":"; text dc +:+ ":"] res (scalar_performance rw rc m));
    [|by simplify_map_eq|exact Hev|exact Hperf].
  rewrite (evaluate_metrics_scalar r m_used [] _
             {| sc_name := "used"; sc_warning := never_alert;
                sc_critical := never_alert |}
             {| state := OK; result_hint := NoHint; metric := Some m_used |});
    [|by simplify_map_eq|exact (never_alert_int m_used (total - free) eq_refl)].
  cbn [evaluate_metrics]. unfold mret, eff_ret. cbn [map state app guarded].
  assert (Hoverall : overall [state res; OK] = state res)
    by (destruct (state res); reflexivity).
  rewrite Hoverall, Hstate.
  assert (Hok : SystemMemorySummary_ok ["free"]
                  [res; {| state := OK; result_hint := NoHint; metric := Some m_used |}]
                = Return (OfResults [res])).
  { unfold SystemMemorySummary_ok, result_by_name. cbn [mapM find].
    rewrite Hmetric. reflexivity. }
  cbn [SystemMemorySummary ok problem default_Summary]. rewrite Hok.
  destruct (bool_decide (st = OK)); cbn; repeat split.
Qed.

Lemma system_memory_free_thresholds_are_lower_bounds_witness :
  let run := system_memory (router ∅ [memory_row 200 1000]) false
               (text (chars "300")) (text (chars "100")) in
  let st := if 200 <? digits_value (chars "100") then CRITICAL
            else if 200 <? digits_value (chars "300") then WARNING else OK in
  status_of run = Some st /\
  exit_code_of run = Some (exit_code st) /\
  map label <$> perfdata_of run = Some ["free"; "used"] /\
  fst run = [text (chars "300") +:+ ":"; text (chars "100") +:+ ":"].
Proof.
  apply (system_memory_free_thresholds_are_lower_bounds
           (router ∅ [memory_row 200 1000]) (memory_row 200 1000) [] 200 1000
           (chars "300") (chars "100"));
    first [reflexivity | split; [discriminate|reflexivity]].
Defined.

(** X21. With [--used] and thresholds given in digits, as bytes, the
    thresholds are upper bounds on the used memory, total-memory minus
    free-memory: the status is CRITICAL when the used memory is above
    the critical threshold, else WARNING when it is above the warning
    threshold, else OK; a used memory below 0 alerts as well. The free
    memory is reported and never alerted on, and the summary of an OK
    check is the result of used, not the first result. *)
Theorem system_memory_used_thresholds_are_upper_bounds
    (base : RouterOSCheckResource) (row : response) (rows : list response)
    (free total : Z) (dw dc : list ascii) :
  device base = Return (row :: rows) ->
  row !! "free-memory" = Some (PInt free) ->
  row !! "total-memory" = Some (PInt total) ->
  digits dw -> digits dc ->
  let run := system_memory base true (text dw) (text dc) in
  let used := total - free in
  let st := if (used <? 0) || (digits_value dc <? used) then CRITICAL
            else if (used <? 0) || (digits_value dw <? used) then WARNING else OK in
  status_of run = Some st /\
  exit_code_of run = Some (exit_code st) /\
  map label <$> perfdata_of run = Some ["free"; "used"] /\
  fst run = [text dw; text dc] /\
  (st = OK -> exists res, summary_of run = Some (OfResults [res]) /\
                          metric res = Some (bytes "used" used total)).
Proof.
  intros Hdev Hfree Htotal Dw Dc run used st. subst run.
  set (rw := {| invert := false; start := NInt 0; end_ := NInt (digits_value dw) |}).
  set (rc := {| invert := false; start := NInt 0; end_ := NInt (digits_value dc) |}).
  set (m := bytes "free" free total).
  set (m_used := bytes "used" used total).
  set (r := set_memory_total (PInt total) (new_SystemMemoryResource base)).
  set (pc := new_ScalarPercentContext "used" "memory_total"
               (Some (text dw)) (Some (text dc))).
  destruct (scalar_evaluate_tiers rw rc m_used _ _
              (upper_bound_evaluate (digits_value dw) used)
              (upper_bound_evaluate (digits_value dc) used))
    as (res & Hres & Hmetric & Hstate).
  fold st in Hstate.
  assert (Hev : ScalarPercentContext_evaluate m_used r pc
                = (set_critical rc (set_warning rw pc), [text dw; text dc], Return res)).
  { rewrite <- Hres.
    apply (evaluate_first pc m_used r (PInt total)).
    - left; reflexivity.
    - reflexivity.
    - apply regex_sub_without_percent, digits_have_no; [exact plainc_not_percent|apply Dw].
    - apply regex_sub_without_percent, digits_have_no; [exact plainc_not_percent|apply Dc].
    - now apply parse_digits.
    - now apply parse_digits. }
  pose proof (performance_resolved (set_critical rc (set_warning rw pc)) rw rc m_used r
                eq_refl eq_refl) as Hperf.
  unfold system_memory.
  change (new_ScalarContext "free" None None)
    with (Return {| sc_name := "free"; sc_warning := never_alert;
                    sc_critical := never_alert |}).
  cbn [mbind res_bind fold_left]. unfold main.
  cbn [resource new_Check add_context add_summary contexts context_name context_Context
       sc_name spc_name new_ScalarPercentContext summary].
  rewrite (memory_probe_run base row rows free total Hdev Hfree Htotal).
  fold used. fold m m_used r pc.
  rewrite (evaluate_metrics_scalar r m [m_used] _
             {| sc_name := "free"; sc_warning := never_alert;
                sc_critical := never_alert |}
             {| state := OK; result_hint := NoHint; metric := Some m |});
    [|by simplify_map_eq|exact (never_alert_int m free eq_refl)].
  rewrite (evaluate_metrics_percent r m_used [] _ pc
             (set_critical rc (set_warning rw pc))
             [text dw; text dc] res (scalar_performance rw rc m_used));
    [|by simplify_map_eq|exact Hev|exact Hperf].
  cbn [evaluate_metrics]. unfold mret, eff_ret. cbn [map state app guarded].
  assert (Hoverall : overall [OK; state res] = state res)
    by (destruct (state res); reflexivity).
  rewrite Hoverall, Hstate.
  assert (Hok : SystemMemorySummary_ok ["used"]
                  [{| state := OK; result_hint := NoHint; metric := Some m |}; res]
                = Return (OfResults [res])).
  { unfold SystemMemorySummary_ok, result_by_name. cbn [mapM find metric name m bytes].
    cbn [String.eqb Ascii.eqb Bool.eqb]. rewrite Hmetric. reflexivity. }
  cbn [SystemMemorySummary ok problem default_Summary]. rewrite Hok.
  destruct (bool_decide_reflect (st = OK)) as [Hst|Hst]; cbn.
  - repeat split. intros _. exists res. split; [reflexivity|exact Hmetric].
  - repeat split. intros Hst'. contradiction.
Qed.

Lemma system_memory_used_thresholds_are_upper_bounds_witness :
  let run := system_memory (router ∅ [memory_row 200000000 1000000000]) true
               (text (chars "70")) (text (chars "90")) in
  let used := 1000000000 - 200000000 in
  let st := if (used <? 0) || (digits_value (chars "90") <? used) then CRITICAL
            else if (used <? 0) || (digits_value (chars "70") <? used) then WARNING else OK in
  status_of run = Some st /\
  exit_code_of run = Some (exit_code st) /\
  map label <$> perfdata_of run = Some ["free"; "used"] /\
  fst run = [text (chars "70"); text (chars "90")] /\
  (st = OK -> exists res, summary_of run = Some (OfResults [res]) /\
                          metric res = Some (bytes "used" used 1000000000)).
Proof.
  apply (system_memory_used_thresholds_are_upper_bounds
           (router ∅ [memory_row 200000000 1000000000])
           (memory_row 200000000 1000000000) [] 200000000 1000000000
           (chars "70") (chars "90"));
    first [reflexivity | split; [discriminate|reflexivity]].
Defined.
